(** * SolarSize Nigeria: the calculation core of [solar_app_prototype.py]

    A shallow embedding of the pure functions of the Streamlit prototype
    (consumption, solar sizing, panel recommendation, the budget optimizer
    and the vendor lookup) together with the reference tables they read.

    Conventions of the embedding.
    - The functions are embedded twice.  Module [Py], at the end of the
      definitions, computes with Python's own numbers: unbounded integers
      and binary64 floats (Rocq's primitive floats), with the exceptions
      Python raises.  It decides everything that depends on a rounded
      value: the panel count, the budget mark, the two-decimal figures,
      overflow.
    - The definitions outside [Py] read the same code over exact rationals
      ([Q]), with [Z] for the integers the code only counts with.  They
      carry the statements that do not depend on rounding (sums, orderings,
      bounds, the structure of the results).
    - Dictionaries that are only looked up by key ([NIGERIAN_CITIES],
      [VENDORS]) are [gmap]s; dictionaries that the code iterates over
      ([SOLAR_PANELS], the appliance working set, [scenarios]) are
      association lists in insertion order, which is the order Python
      iterates in.
    - A Python exception is a value of [exn] on the left of [result]. *)

From Stdlib Require Import QArith Qround Lqa Lia ZArith List Floats.
From stdpp Require Import gmap strings list.

Set Warnings "-inexact-float".

Local Open Scope Q_scope.

(** ** Exceptions and fallible arithmetic *)

(** [ZeroDivisionError] is what Python raises on a zero divisor.
    [InvalidInput] is the error named by the specification's error
    taxonomy; no path of the source raises it. *)
Inductive exn : Set :=
| ZeroDivisionError
| InvalidInput.

Definition result (A : Type) : Type := exn + A.

#[global] Instance result_ret : MRet result := λ A a, inr a.
#[global] Instance result_bind : MBind result := λ A B k m,
  match m with
  | inl e => inl e
  | inr a => k a
  end.

Definition raise {A : Type} (e : exn) : result A := inl e.

(** A [for] loop whose body may raise: the state is threaded through the
    items in order and the first exception ends the loop. *)
Fixpoint for_loop {S A : Type} (body : S → A → result S) (items : list A) (s : S)
  : result S :=
  match items with
  | [] => mret s
  | x :: rest => s' ← body s x; for_loop body rest s'
  end.

(** Python's [a / b] on numbers. *)
Definition py_div (a b : Q) : result Q :=
  if Qeq_bool b 0 then raise ZeroDivisionError else mret (a / b).

(** [round(x, 2)] and the [.0f] format round to the nearest multiple of the
    unit, ties to the even neighbour. *)
Definition round_half_even (x : Q) : Z :=
  let f := Qfloor x in
  match Qcompare (x - inject_Z f) (1 # 2) with
  | Lt => f
  | Gt => (f + 1)%Z
  | Eq => if Z.even f then f else (f + 1)%Z
  end.

Definition round2 (x : Q) : Q := inject_Z (round_half_even (x * 100)) / 100.


(** ** Reference tables *)

Record appliance : Set := {
  power : Q;
  hours : Q;
  quantity : Z;
  priority : string
}.

Record catalog_appliance : Set := {
  cat_power : Q;
  cat_hours : Q;
  cat_priority : string
}.

Definition APPLIANCES_DB : list (string * catalog_appliance) := [
  ("Refrigerator (Energy Efficient)", {| cat_power := 150; cat_hours := 24; cat_priority := "High" |});
  ("Refrigerator (Standard)", {| cat_power := 300; cat_hours := 24; cat_priority := "High" |});
  ("Air Conditioner (1HP)", {| cat_power := 746; cat_hours := 8; cat_priority := "Medium" |});
  ("Air Conditioner (1.5HP)", {| cat_power := 1119; cat_hours := 8; cat_priority := "Medium" |});
  ("Air Conditioner (2HP)", {| cat_power := 1492; cat_hours := 8; cat_priority := "Low" |});
  ("LED TV (32 inch)", {| cat_power := 60; cat_hours := 6; cat_priority := "Medium" |});
  ("LED TV (55 inch)", {| cat_power := 120; cat_hours := 6; cat_priority := "Medium" |});
  ("Ceiling Fan", {| cat_power := 75; cat_hours := 12; cat_priority := "High" |});
  ("LED Bulb (12W)", {| cat_power := 12; cat_hours := 8; cat_priority := "High" |});
  ("Fluorescent Tube", {| cat_power := 40; cat_hours := 8; cat_priority := "Medium" |});
  ("Laptop", {| cat_power := 65; cat_hours := 8; cat_priority := "High" |});
  ("Desktop Computer", {| cat_power := 200; cat_hours := 8; cat_priority := "Medium" |});
  ("Washing Machine", {| cat_power := 500; cat_hours := 1; cat_priority := "Medium" |});
  ("Microwave", {| cat_power := 1000; cat_hours := 0.5; cat_priority := "Low" |});
  ("Electric Kettle", {| cat_power := 1500; cat_hours := 0.25; cat_priority := "Low" |});
  ("Iron", {| cat_power := 1200; cat_hours := 1; cat_priority := "Low" |});
  ("Water Pump", {| cat_power := 750; cat_hours := 2; cat_priority := "High" |});
  ("Security System", {| cat_power := 50; cat_hours := 24; cat_priority := "High" |});
  ("Phone Charger", {| cat_power := 10; cat_hours := 3; cat_priority := "High" |});
  ("Router/WiFi", {| cat_power := 20; cat_hours := 24; cat_priority := "High" |})
].

(** The entry the Load Calculator page stores for a catalogue appliance the
    user ticks: the catalogue figures with [quantity] 1. *)
Definition selected_entry (c : catalog_appliance) : appliance :=
  {| power := cat_power c; hours := cat_hours c; quantity := 1;
     priority := cat_priority c |}.

Record panel : Set := {
  watts : Q;
  price : Q;
  efficiency : Z;
  warranty : Z
}.

Definition SOLAR_PANELS : list (string * panel) := [
  ("Monocrystalline 300W", {| watts := 300; price := 85000; efficiency := 20; warranty := 25 |});
  ("Monocrystalline 400W", {| watts := 400; price := 110000; efficiency := 21; warranty := 25 |});
  ("Monocrystalline 500W", {| watts := 500; price := 135000; efficiency := 22; warranty := 25 |});
  ("Polycrystalline 300W", {| watts := 300; price := 75000; efficiency := 17; warranty := 20 |});
  ("Polycrystalline 400W", {| watts := 400; price := 95000; efficiency := 18; warranty := 20 |})
].

Definition city_irradiance : list (string * Q) := [
  ("Lagos", 4.5);
  ("Abuja", 5.2);
  ("Kano", 5.8);
  ("Ibadan", 4.8);
  ("Port Harcourt", 4.2);
  ("Kaduna", 5.5);
  ("Benin City", 4.4);
  ("Jos", 5.7);
  ("Ilorin", 5.1);
  ("Maiduguri", 6.0)
].

Definition NIGERIAN_CITIES : gmap string Q := list_to_map city_irradiance.

Record vendor : Set := {
  name : string;
  rating : Q;
  phone : string;
  speciality : string
}.

Definition vendor_entries : list (string * list vendor) := [
  ("Lagos", [
    {| name := "SolarMax Nigeria"; rating := 4.5; phone := "08012345678"; speciality := "Residential" |};
    {| name := "GreenTech Solar"; rating := 4.2; phone := "08087654321"; speciality := "Commercial" |};
    {| name := "PowerGen Solutions"; rating := 4.7; phone := "08011223344"; speciality := "Hybrid Systems" |}
  ]);
  ("Abuja", [
    {| name := "Capital Solar"; rating := 4.6; phone := "08055667788"; speciality := "Residential" |};
    {| name := "Federal Solar Co."; rating := 4.3; phone := "08099887766"; speciality := "Government Projects" |};
    {| name := "Sunrise Energy"; rating := 4.4; phone := "08033445566"; speciality := "Off-grid Systems" |}
  ]);
  ("Kano", [
    {| name := "Northern Solar"; rating := 4.1; phone := "08077889900"; speciality := "Agricultural" |};
    {| name := "Sahel Power"; rating := 4.5; phone := "08044556677"; speciality := "Residential" |}
  ])
].

Definition VENDORS : gmap string (list vendor) := list_to_map vendor_entries.

(** ** Consumption calculator *)

(** The working set [st.session_state.appliances_data]. *)
Abbreviation appliances := (list (string * appliance)).

(** One turn of the [for] loop of [calculate_daily_consumption]; the state
    is the pair of accumulators [(total_watts, total_kwh)]. *)
Definition consumption_step (acc : Q * Q) (item : string * appliance) : Q * Q :=
  let '(total_watts, total_kwh) := acc in
  let data := item.2 in
  if (0 <? quantity data)%Z then
    let watts := power data * inject_Z (quantity data) in
    let kwh := (watts * hours data) / 1000 in
    (total_watts + watts, total_kwh + kwh)
  else (total_watts, total_kwh).

Definition calculate_daily_consumption (appliances_data : appliances) : Q * Q :=
  fold_left consumption_step appliances_data (0, 0).

(** The specification's reading of the same function: two sums over the
    entries with a positive quantity. *)
Definition positive_quantity (item : string * appliance) : bool :=
  (0 <? quantity item.2)%Z.





(** ** Solar sizing calculator *)

Section Sizing.
(** The city table the function reads; the module's global is
    [NIGERIAN_CITIES]. *)
Variable cities : gmap string Q.

Definition calculate_solar_system_with
    (daily_kwh : Q) (location : string) (autonomy_days : Z) : result (Q * Q * Q) :=
  let solar_irradiance := default 5.0 (cities !! location) in
  let system_efficiency := 0.85 in
  required_solar_kwp ← py_div daily_kwh (solar_irradiance * system_efficiency);
  let battery_kwh := daily_kwh * inject_Z autonomy_days in
  mret (required_solar_kwp, battery_kwh, solar_irradiance).
End Sizing.

Definition calculate_solar_system : Q → string → Z → result (Q * Q * Q) :=
  calculate_solar_system_with NIGERIAN_CITIES.

(** The default of the keyword argument [autonomy_days=2]. *)
Definition default_autonomy_days : Z := 2.

(** ** Panel recommender *)

(** A row of the returned data frame.  [Total_Cost] holds the integer that
    the format [,.0f] prints; the currency sign and the thousands separators
    are display only. *)
Record recommendation : Set := {
  Panel_Type : string;
  Number_of_Panels : Z;
  Total_Capacity_kW : Q;
  Total_Cost : Z;
  Cost_per_Watt : Q;
  Efficiency : Z;
  Warranty_Years : Z
}.

Definition recommend_step (required_kwp : Q)
    (recommendations : list recommendation) (item : string * panel)
  : result (list recommendation) :=
  let '(panel_name, panel_data) := item in
  let panel_kw := watts panel_data / 1000 in
  ratio ← py_div required_kwp panel_kw;
  let num_panels := Qceiling ratio in
  let total_capacity := inject_Z num_panels * panel_kw in
  let total_cost := inject_Z num_panels * price panel_data in
  cost_per_watt ← py_div (price panel_data) (watts panel_data);
  mret (recommendations ++ [{|
    Panel_Type := panel_name;
    Number_of_Panels := num_panels;
    Total_Capacity_kW := round2 total_capacity;
    Total_Cost := round_half_even total_cost;
    Cost_per_Watt := round2 cost_per_watt;
    Efficiency := efficiency panel_data;
    Warranty_Years := warranty panel_data
  |}]).

(** The loop of [recommend_panels] over an arbitrary panel table. *)
Definition recommend_panels_with (panels : list (string * panel)) (required_kwp : Q)
  : result (list recommendation) :=
  for_loop (recommend_step required_kwp) panels [].

Definition recommend_panels : Q → result (list recommendation) :=
  recommend_panels_with SOLAR_PANELS.

(** ** Scenario optimizer (the Load Optimization page) *)

Definition scenarios : list (string * list string) := [
  ("Essential Only (High Priority)", ["High"]);
  ("Essential + Important (High + Medium)", ["High"; "Medium"]);
  ("All Appliances", ["High"; "Medium"; "Low"])
].

(** A row of [results].  [Est_Cost] and [Monthly_Savings] hold the integers
    printed by [,.0f]; [Within_Budget] is [true] for the check mark. *)
Record scenario_result : Set := {
  Scenario : string;
  Daily_kWh : Q;
  Solar_kWp : Q;
  Est_Cost : Z;
  Within_Budget : bool;
  Monthly_Savings : Z
}.

(** The condition of the dictionary comprehension. *)
Definition in_scenario (priorities : list string) (item : string * appliance) : bool :=
  let data := item.2 in
  bool_decide (priority data ∈ priorities)
  && (0 <? quantity data)%Z
  && negb (String.eqb (priority data) "Remove").

Definition scenario_appliances (appliances_data : appliances) (priorities : list string)
  : appliances :=
  List.filter (in_scenario priorities) appliances_data.

Definition optimization_step (appliances_data : appliances) (max_budget : Q)
    (results : list scenario_result) (scenario : string * list string)
  : result (list scenario_result) :=
  let '(scenario_name, priorities) := scenario in
  match scenario_appliances appliances_data priorities with
  | [] => mret results
  | selected =>
    let '(total_watts, total_kwh) := calculate_daily_consumption selected in
    '(required_kwp, battery_kwh, _) ← calculate_solar_system total_kwh "Lagos" default_autonomy_days;
    let panel_cost := required_kwp * 300000 in
    let inverter_cost := required_kwp * 200000 in
    let battery_cost := battery_kwh * 150000 in
    let installation_cost := panel_cost * 0.3 in
    let total_cost := panel_cost + inverter_cost + battery_cost + installation_cost in
    mret (results ++ [{|
      Scenario := scenario_name;
      Daily_kWh := round2 total_kwh;
      Solar_kWp := round2 required_kwp;
      Est_Cost := round_half_even total_cost;
      Within_Budget := Qle_bool total_cost max_budget;
      Monthly_Savings := round_half_even (total_kwh * 30 * 100)
    |}])
  end.

Definition optimization_results (appliances_data : appliances) (max_budget : Q)
  : result (list scenario_result) :=
  for_loop (optimization_step appliances_data max_budget) scenarios [].

Definition affordable_scenarios (results : list scenario_result) : list scenario_result :=
  List.filter Within_Budget results.

(** Python's [max(items, key=key)] started at [best]: a later item replaces
    the current best only when its key is strictly greater. *)
Fixpoint max_from {A : Type} (key : A → Q) (best : A) (items : list A) : A :=
  match items with
  | [] => best
  | x :: rest =>
    if Qle_bool (key x) (key best) then max_from key best rest
    else max_from key x rest
  end.

(** [best_scenario] is only assigned under [if affordable_scenarios:]. *)
Definition best_scenario (results : list scenario_result) : option scenario_result :=
  match affordable_scenarios results with
  | [] => None
  | r :: rest => Some (max_from Daily_kWh r rest)
  end.

(** The recommendation shown for a working set and a budget. *)
Definition recommended_configuration (appliances_data : appliances) (max_budget : Q)
  : result (option scenario_result) :=
  results ← optimization_results appliances_data max_budget;
  mret (best_scenario results).

(** The unrounded daily energy of a scenario, as the loop computes it
    before it stores the rounded figure in the row. *)
Definition scenario_daily_kwh (appliances_data : appliances) (priorities : list string) : Q :=
  (calculate_daily_consumption (scenario_appliances appliances_data priorities)).2.

(** ** Vendor directory lookup (the Find Vendors page) *)

Definition vendor_matches (service_type : string) (v : vendor) : bool :=
  String.eqb service_type "All" || String.eqb (speciality v) service_type.

Section Vendors.
Variable vendors : gmap string (list vendor).

Definition city_vendors (selected_city : string) : list vendor :=
  default [] (vendors !! selected_city).

(** The vendors the page opens an expander for, in the order of the
    [for] loop. *)
Definition shown_vendors_with (selected_city service_type : string) : list vendor :=
  fold_left
    (fun shown v => if vendor_matches service_type v then shown ++ [v] else shown)
    (city_vendors selected_city) [].
End Vendors.

Definition shown_vendors : string → string → list vendor :=
  shown_vendors_with VENDORS.

(** ** The code over Python's numbers *)

Module Py.

(** The exceptions of Python that the calculations can raise, and the
    [InvalidInput] of the specification's error taxonomy, which no path of
    the source raises. *)
Inductive exn : Set :=
| ZeroDivisionError
| OverflowError
| ValueError
| InvalidInput.

Definition result (A : Type) : Type := exn + A.

#[global] Instance result_ret : MRet result := λ A a, inr a.
#[global] Instance result_bind : MBind result := λ A B k m,
  match m with
  | inl e => inl e
  | inr a => k a
  end.

Definition raise {A : Type} (e : exn) : result A := inl e.

Fixpoint for_loop {S A : Type} (body : S → A → result S) (items : list A) (s : S)
  : result S :=
  match items with
  | [] => mret s
  | x :: rest => s' ← body s x; for_loop body rest s'
  end.

(** *** Numbers *)

(** A Python number: an [int] of any size or a binary64 [float]. *)
Inductive num : Set :=
| Int (z : Z)
| Flt (f : float).

(** The number a value stands for: a rational, an infinity, or none. *)
Inductive xreal : Set :=
| XNaN
| XNegInf
| XFin (q : Q)
| XPosInf.

Definition two_power (e : Z) : Q :=
  match e with
  | Z0 => 1
  | Zpos p => inject_Z (Z.pow_pos 2 p)
  | Zneg p => 1 # (2 ^ p)
  end.

Definition value_of_float (f : float) : xreal :=
  match Prim2SF f with
  | S754_nan => XNaN
  | S754_zero _ => XFin 0
  | S754_infinity s => if s then XNegInf else XPosInf
  | S754_finite s m e => XFin (inject_Z (if s then Zneg m else Zpos m) * two_power e)
  end.

Definition value (n : num) : xreal :=
  match n with
  | Int z => XFin (inject_Z z)
  | Flt f => value_of_float f
  end.

(** Python compares numbers by value, an [int] with a [float] exactly;
    every comparison with a NaN is false. *)
Definition xlt (a b : xreal) : bool :=
  match a, b with
  | XNaN, _ | _, XNaN => false
  | _, XNegInf => false
  | XNegInf, _ => true
  | XPosInf, _ => false
  | XFin _, XPosInf => true
  | XFin p, XFin q => negb (Qle_bool q p)
  end.

Definition xle (a b : xreal) : bool :=
  match a, b with
  | XNaN, _ | _, XNaN => false
  | XNegInf, _ => true
  | _, XNegInf => false
  | _, XPosInf => true
  | XPosInf, _ => false
  | XFin p, XFin q => Qle_bool p q
  end.

Definition lt (a b : num) : bool := xlt (value a) (value b).
Definition le (a b : num) : bool := xle (value a) (value b).

Definition is_nan_num (n : num) : bool :=
  match value n with
  | XNaN => true
  | _ => false
  end.

(** [z] and [a / b] rounded to the nearest binary64 number, ties to even. *)
Definition round_Z (z : Z) : float := SF2Prim (binary_normalize prec emax z 0 false).

Definition round_ratio (a b : Z) : float :=
  let negative := xorb (a <? 0)%Z (b <? 0)%Z in
  match a with
  | Z0 => if negative then neg_zero else zero
  | _ =>
    let '(q, e, l) := SFdiv_core_binary prec emax (Z.abs a) 0 (Z.abs b) 0 in
    SF2Prim (binary_round_aux prec emax negative q e l)
  end.

(** The conversion of an operand to [float] in mixed arithmetic. *)
Definition to_float (n : num) : result float :=
  match n with
  | Flt f => mret f
  | Int z =>
    let f := round_Z z in
    if is_infinity f then raise OverflowError else mret f
  end.

Definition add (a b : num) : result num :=
  match a, b with
  | Int x, Int y => mret (Int (x + y))
  | _, _ => x ← to_float a; y ← to_float b; mret (Flt (x + y)%float)
  end.

Definition mul (a b : num) : result num :=
  match a, b with
  | Int x, Int y => mret (Int (x * y))
  | _, _ => x ← to_float a; y ← to_float b; mret (Flt (x * y)%float)
  end.

(** [a / b]: always a [float]. *)
Definition truediv (a b : num) : result float :=
  match a, b with
  | Int x, Int y =>
    if (y =? 0)%Z then raise ZeroDivisionError
    else
      let f := round_ratio x y in
      if is_infinity f then raise OverflowError else mret f
  | _, _ =>
    x ← to_float a;
    y ← to_float b;
    if is_zero y then raise ZeroDivisionError else mret (x / y)%float
  end.

(** [round(x, 2)]: the exact value of a float rounded to hundredths, ties
    to even, and that decimal read back as a float; an [int] is returned as
    it is. *)
Definition round2 (n : num) : num :=
  match n with
  | Int z => Int z
  | Flt f =>
    match value_of_float f with
    | XFin q =>
      let hundredths := round_half_even (q * 100) in
      Flt (if (hundredths =? 0)%Z
           then (if get_sign f then neg_zero else zero)
           else round_ratio hundredths 100)
    | _ => Flt f
    end
  end.

(** What the format [,.0f] prints, without the separators. *)
Inductive shown : Set :=
| Digits (z : Z)
| Infinite (negative : bool)
| NotANumber.

Definition format0 (n : num) : result shown :=
  f ← to_float n;
  mret (match value_of_float f with
        | XFin q => Digits (round_half_even q)
        | XPosInf => Infinite false
        | XNegInf => Infinite true
        | XNaN => NotANumber
        end).

(** [int(np.ceil(x))]. *)
Definition ceil_int (x : float) : result Z :=
  match value_of_float x with
  | XFin q => mret (Qceiling q)
  | XNaN => raise ValueError
  | XPosInf | XNegInf => raise OverflowError
  end.

(** *** Tables *)

Record appliance : Set := {
  power : num;
  hours : num;
  quantity : Z;
  priority : string
}.

Record panel : Set := {
  watts : Z;
  price : Z;
  efficiency : Z;
  warranty : Z
}.

Definition SOLAR_PANELS : list (string * panel) := [
  ("Monocrystalline 300W", {| watts := 300; price := 85000; efficiency := 20; warranty := 25 |});
  ("Monocrystalline 400W", {| watts := 400; price := 110000; efficiency := 21; warranty := 25 |});
  ("Monocrystalline 500W", {| watts := 500; price := 135000; efficiency := 22; warranty := 25 |});
  ("Polycrystalline 300W", {| watts := 300; price := 75000; efficiency := 17; warranty := 20 |});
  ("Polycrystalline 400W", {| watts := 400; price := 95000; efficiency := 18; warranty := 20 |})
].

Definition city_irradiance : list (string * float) := [
  ("Lagos", 4.5%float);
  ("Abuja", 5.2%float);
  ("Kano", 5.8%float);
  ("Ibadan", 4.8%float);
  ("Port Harcourt", 4.2%float);
  ("Kaduna", 5.5%float);
  ("Benin City", 4.4%float);
  ("Jos", 5.7%float);
  ("Ilorin", 5.1%float);
  ("Maiduguri", 6.0%float)
].

Definition NIGERIAN_CITIES : gmap string float := list_to_map city_irradiance.

(** *** calculate_daily_consumption *)

Definition consumption_step (acc : num * num) (item : string * appliance)
  : result (num * num) :=
  let '(total_watts, total_kwh) := acc in
  let data := item.2 in
  if (0 <? quantity data)%Z then
    watts ← mul (power data) (Int (quantity data));
    energy ← mul watts (hours data);
    kwh ← truediv energy (Int 1000);
    total_watts' ← add total_watts watts;
    total_kwh' ← add total_kwh (Flt kwh);
    mret (total_watts', total_kwh')
  else mret (total_watts, total_kwh).

Definition calculate_daily_consumption (appliances_data : list (string * appliance))
  : result (num * num) :=
  for_loop consumption_step appliances_data (Int 0, Int 0).

(** *** calculate_solar_system *)

Definition calculate_solar_system_with (cities : gmap string float)
    (daily_kwh : num) (location : string) (autonomy_days : Z)
  : result (num * num * num) :=
  let solar_irradiance := default 5.0%float (cities !! location) in
  let system_efficiency := 0.85%float in
  required_solar_kwp ←
    truediv daily_kwh (Flt (solar_irradiance * system_efficiency)%float);
  battery_kwh ← mul daily_kwh (Int autonomy_days);
  mret (Flt required_solar_kwp, battery_kwh, Flt solar_irradiance).

Definition calculate_solar_system : num → string → Z → result (num * num * num) :=
  calculate_solar_system_with NIGERIAN_CITIES.

(** *** recommend_panels *)

Record recommendation : Set := {
  Panel_Type : string;
  Number_of_Panels : Z;
  Total_Capacity_kW : num;
  Total_Cost : shown;
  Cost_per_Watt : num;
  Efficiency : Z;
  Warranty_Years : Z
}.

Definition recommend_step (required_kwp : num)
    (recommendations : list recommendation) (item : string * panel)
  : result (list recommendation) :=
  let '(panel_name, panel_data) := item in
  panel_kw ← truediv (Int (watts panel_data)) (Int 1000);
  ratio ← truediv required_kwp (Flt panel_kw);
  num_panels ← ceil_int ratio;
  total_capacity ← mul (Int num_panels) (Flt panel_kw);
  total_cost ← mul (Int num_panels) (Int (price panel_data));
  total_cost_shown ← format0 total_cost;
  cost_per_watt ← truediv (Int (price panel_data)) (Int (watts panel_data));
  mret (recommendations ++ [{|
    Panel_Type := panel_name;
    Number_of_Panels := num_panels;
    Total_Capacity_kW := round2 total_capacity;
    Total_Cost := total_cost_shown;
    Cost_per_Watt := round2 (Flt cost_per_watt);
    Efficiency := efficiency panel_data;
    Warranty_Years := warranty panel_data
  |}]).

Definition recommend_panels_with (panels : list (string * panel)) (required_kwp : num)
  : result (list recommendation) :=
  for_loop (recommend_step required_kwp) panels [].

Definition recommend_panels : num → result (list recommendation) :=
  recommend_panels_with SOLAR_PANELS.

(** [Series.idxmin()]: the position of the first smallest value that is not
    a NaN; none when there is no such value. *)
Fixpoint idxmin_from (best : option (nat * num)) (i : nat) (values : list num)
  : option nat :=
  match values with
  | [] => fst <$> best
  | v :: rest =>
    if is_nan_num v then idxmin_from best (S i) rest
    else
      match best with
      | None => idxmin_from (Some (i, v)) (S i) rest
      | Some (_, b) =>
        if lt v b then idxmin_from (Some (i, v)) (S i) rest
        else idxmin_from best (S i) rest
      end
  end.

Definition idxmin (values : list num) : option nat := idxmin_from None 0 values.

(** [recommendations_df.loc[recommendations_df['Cost per Watt'].idxmin()]]. *)
Definition best_option (recommendations_df : list recommendation) : option recommendation :=
  i ← idxmin (map Cost_per_Watt recommendations_df); recommendations_df !! i.

(** *** The scenario loop and the recommendation *)

Record scenario_result : Set := {
  Scenario : string;
  Daily_kWh : num;
  Solar_kWp : num;
  Est_Cost : shown;
  Within_Budget : bool;
  Monthly_Savings : shown
}.

Definition in_scenario (priorities : list string) (item : string * appliance) : bool :=
  let data := item.2 in
  bool_decide (priority data ∈ priorities)
  && (0 <? quantity data)%Z
  && negb (String.eqb (priority data) "Remove").

Definition scenario_appliances (appliances_data : list (string * appliance))
    (priorities : list string) : list (string * appliance) :=
  List.filter (in_scenario priorities) appliances_data.

Definition optimization_step (appliances_data : list (string * appliance))
    (max_budget : num) (results : list scenario_result)
    (scenario : string * list string) : result (list scenario_result) :=
  let '(scenario_name, priorities) := scenario in
  match scenario_appliances appliances_data priorities with
  | [] => mret results
  | selected =>
    '(total_watts, total_kwh) ← calculate_daily_consumption selected;
    '(required_kwp, battery_kwh, _) ←
      calculate_solar_system total_kwh "Lagos" default_autonomy_days;
    panel_cost ← mul required_kwp (Int 300000);
    inverter_cost ← mul required_kwp (Int 200000);
    battery_cost ← mul battery_kwh (Int 150000);
    installation_cost ← mul panel_cost (Flt 0.3%float);
    panel_inverter ← add panel_cost inverter_cost;
    panel_inverter_battery ← add panel_inverter battery_cost;
    total_cost ← add panel_inverter_battery installation_cost;
    est_cost ← format0 total_cost;
    thirty_days ← mul total_kwh (Int 30);
    savings ← mul thirty_days (Int 100);
    monthly_savings ← format0 savings;
    mret (results ++ [{|
      Scenario := scenario_name;
      Daily_kWh := round2 total_kwh;
      Solar_kWp := round2 required_kwp;
      Est_Cost := est_cost;
      Within_Budget := le total_cost max_budget;
      Monthly_Savings := monthly_savings
    |}])
  end.

Definition optimization_results (appliances_data : list (string * appliance))
    (max_budget : num) : result (list scenario_result) :=
  for_loop (optimization_step appliances_data max_budget) scenarios [].

Definition affordable_scenarios (results : list scenario_result) : list scenario_result :=
  List.filter Within_Budget results.

(** [max(items, key=key)] started at [best]: a later item takes over only
    when its key is greater. *)
Fixpoint max_from {A : Type} (key : A → num) (best : A) (items : list A) : A :=
  match items with
  | [] => best
  | x :: rest =>
    if lt (key best) (key x) then max_from key x rest
    else max_from key best rest
  end.

Definition best_scenario (results : list scenario_result) : option scenario_result :=
  match affordable_scenarios results with
  | [] => None
  | r :: rest => Some (max_from Daily_kWh r rest)
  end.

Definition recommended_configuration (appliances_data : list (string * appliance))
    (max_budget : num) : result (option scenario_result) :=
  results ← optimization_results appliances_data max_budget;
  mret (best_scenario results).

End Py.

(** ** Statements over Python's numbers *)

(** A number that is neither a NaN nor an infinity, and one that is
    neither a NaN nor below zero. *)
Definition py_finite (n : Py.num) : bool :=
  match Py.value n with
  | Py.XFin _ => true
  | _ => false
  end.





(** The irradiance [calculate_solar_system] works with. *)
Definition py_irradiance_used (cities : gmap string float) (location : string) : float :=
  default 5.0%float (cities !! location).

(** [count * panel_kw] as the code computes it. *)
Definition py_panel_capacity (count : Z) (panel_data : Py.panel) : Py.result Py.num :=
  panel_kw ← Py.truediv (Py.Int (Py.watts panel_data)) (Py.Int 1000);
  Py.mul (Py.Int count) (Py.Flt panel_kw).



(** What the loop of [recommend_panels] puts in the row of a catalogue
    entry: the number of panels is the ceiling of the binary64 quotient of
    the requirement by the binary64 [panel_kw], hence the least integer
    that is not below that quotient. *)
Definition py_panel_row_ok (required_kwp : Py.num) (item : string * Py.panel)
    (row : Py.recommendation) : Prop :=
  ∃ (panel_kw ratio : float) (q : Q) (capacity : Py.num),
    Py.truediv (Py.Int (Py.watts item.2)) (Py.Int 1000) = inr panel_kw
    ∧ Py.truediv required_kwp (Py.Flt panel_kw) = inr ratio
    ∧ Py.value_of_float ratio = Py.XFin q
    ∧ Py.Panel_Type row = item.1
    ∧ Py.Number_of_Panels row = Qceiling q
    ∧ q <= inject_Z (Py.Number_of_Panels row)
    ∧ (∀ count : Z, q <= inject_Z count → (Py.Number_of_Panels row <= count)%Z)
    ∧ (0 < q → (1 <= Py.Number_of_Panels row)%Z)
    ∧ py_panel_capacity (Py.Number_of_Panels row) item.2 = inr capacity
    ∧ Py.Total_Capacity_kW row = Py.round2 capacity.

(** The price per watt of a row, and the row picked as best option. *)
Definition py_cost_per_watt_ok (item : string * Py.panel) (row : Py.recommendation)
  : Prop :=
  ∃ cost_per_watt : float,
    Py.truediv (Py.Int (Py.price item.2)) (Py.Int (Py.watts item.2)) = inr cost_per_watt
    ∧ Py.Cost_per_Watt row = Py.round2 (Py.Flt cost_per_watt).

(** The rows [recommend_panels] returns for a requirement of 2.0 kWp. *)
Definition py_two_kwp_rows : list Py.recommendation :=
  Eval vm_compute in
    match Py.recommend_panels (Py.Flt 2) with
    | inr rows => rows
    | inl _ => []
    end.

(** A scenario is evaluated when its appliance subset is not empty. *)
Definition py_evaluated (appliances_data : list (string * Py.appliance))
    (scenario : string * list string) : bool :=
  match Py.scenario_appliances appliances_data scenario.2 with
  | [] => false
  | _ :: _ => true
  end.

(** The cost estimate of the specification on the numbers of the code, and
    what it makes of a row of [results]. *)
Definition py_scenario_row_ok (appliances_data : list (string * Py.appliance))
    (max_budget : Py.num) (scenario : string * list string)
    (row : Py.scenario_result) : Prop :=
  ∃ total_watts total_kwh required_kwp battery_kwh irradiance : Py.num,
    Py.calculate_daily_consumption (Py.scenario_appliances appliances_data scenario.2)
    = inr (total_watts, total_kwh)
    ∧ Py.calculate_solar_system total_kwh "Lagos" default_autonomy_days
      = inr (required_kwp, battery_kwh, irradiance)
    ∧ ∃ panel_cost inverter_cost battery_cost installation_cost
        panel_inverter panel_inverter_battery total_cost : Py.num,
        Py.mul required_kwp (Py.Int 300000) = inr panel_cost
        ∧ Py.mul required_kwp (Py.Int 200000) = inr inverter_cost
        ∧ Py.mul battery_kwh (Py.Int 150000) = inr battery_cost
        ∧ Py.mul panel_cost (Py.Flt 0.3%float) = inr installation_cost
        ∧ Py.add panel_cost inverter_cost = inr panel_inverter
        ∧ Py.add panel_inverter battery_cost = inr panel_inverter_battery
        ∧ Py.add panel_inverter_battery installation_cost = inr total_cost
        ∧ Py.Scenario row = scenario.1
        ∧ Py.Daily_kWh row = Py.round2 total_kwh
        ∧ Py.Solar_kWp row = Py.round2 required_kwp
        ∧ Py.format0 total_cost = inr (Py.Est_Cost row)
        ∧ Py.Within_Budget row = Py.le total_cost max_budget
        ∧ (∀ cost budget : Q,
             Py.value total_cost = Py.XFin cost →
             Py.value max_budget = Py.XFin budget →
             (Py.Within_Budget row = true ↔ cost <= budget)).

(** The recommendation policy as the specification words it: no scenario
    that fits the budget has a greater daily energy (the unrounded
    [total_kwh] of the loop) than the recommended one. *)
Definition py_recommends_max_daily_kwh (appliances_data : list (string * Py.appliance))
    (max_budget : Py.num) : Prop :=
  ∀ (results : list Py.scenario_result) (best other : Py.scenario_result)
    (chosen fitting : string * list string)
    (chosen_watts chosen_kwh fitting_watts fitting_kwh : Py.num),
    Py.optimization_results appliances_data max_budget = inr results →
    Py.best_scenario results = Some best →
    In chosen scenarios → Py.Scenario best = chosen.1 →
    In fitting scenarios → In other (Py.affordable_scenarios results) →
    Py.Scenario other = fitting.1 →
    Py.calculate_daily_consumption (Py.scenario_appliances appliances_data chosen.2)
    = inr (chosen_watts, chosen_kwh) →
    Py.calculate_daily_consumption (Py.scenario_appliances appliances_data fitting.2)
    = inr (fitting_watts, fitting_kwh) →
    Py.lt chosen_kwh fitting_kwh = false.

(** A working set of two custom appliances, as the form stores them (an
    [int] power, a [float] number of hours): 1000 W for one hour at high
    priority, 4 W for one hour at medium priority. *)
Definition py_two_appliances : list (string * Py.appliance) := [
  ("Heater", {| Py.power := Py.Int 1000; Py.hours := Py.Flt 1%float;
                Py.quantity := 1; Py.priority := "High" |});
  ("Night light", {| Py.power := Py.Int 4; Py.hours := Py.Flt 1%float;
                     Py.quantity := 1; Py.priority := "Medium" |})
].

(** The rows the optimizer returns for [py_two_appliances] and a budget of
    two million, the default of the budget field. *)
Definition py_two_appliances_results : list Py.scenario_result :=
  Eval vm_compute in
    match Py.optimization_results py_two_appliances (Py.Int 2000000) with
    | inr results => results
    | inl _ => []
    end.

(** One appliance of 13005 W used for one hour a day. *)
Definition py_one_appliance : list (string * Py.appliance) := [
  ("Furnace", {| Py.power := Py.Int 13005; Py.hours := Py.Flt 1%float;
                 Py.quantity := 1; Py.priority := "High" |})
].


(** Input validation as the specification's error taxonomy asks for it: a
    zero irradiance and a zero panel wattage are each reported as
    [InvalidInput], and no returned value is a NaN or an infinity. *)
Definition py_guards_zero_irradiance : Prop :=
  ∀ (cities : gmap string float) (daily_kwh : Py.num) (location : string)
    (autonomy_days : Z),
    is_zero (py_irradiance_used cities location) = true →
    Py.calculate_solar_system_with cities daily_kwh location autonomy_days
    = Py.raise Py.InvalidInput.

Definition py_guards_zero_wattage : Prop :=
  ∀ (panels : list (string * Py.panel)) (required_kwp : Py.num),
    Exists (λ item : string * Py.panel, Py.watts item.2 = 0%Z) panels →
    Py.recommend_panels_with panels required_kwp = Py.raise Py.InvalidInput.

Definition py_returns_finite_values : Prop :=
  ∀ (daily_kwh : Py.num) (location : string) (autonomy_days : Z)
    (required_kwp battery_kwh irradiance : Py.num),
    py_finite daily_kwh = true →
    Py.calculate_solar_system daily_kwh location autonomy_days
    = inr (required_kwp, battery_kwh, irradiance) →
    py_finite required_kwp = true ∧ py_finite battery_kwh = true.

(** A city table with a zero irradiance, and a one-panel table whose panel
    has no wattage. *)
Definition py_dark_city : gmap string float := {[ "Nowhere" := 0%float ]}.

Definition py_dead_panel : list (string * Py.panel) :=
  [("Blank 0W", {| Py.watts := 0; Py.price := 1000; Py.efficiency := 0;
                   Py.warranty := 0 |})].

(** ** Statements used by the properties *)

(** A scenario is evaluated when its appliance subset is not empty (the
    test [if scenario_appliances:]). *)
Definition evaluated (appliances_data : appliances) (scenario : string * list string)
  : bool :=
  match scenario_appliances appliances_data scenario.2 with
  | [] => false
  | _ :: _ => true
  end.

(** A working set of two custom appliances: 1000 W for one hour at high
    priority, 4 W for one hour at medium priority. *)
Definition two_appliances : appliances := [
  ("Heater", {| power := 1000; hours := 1; quantity := 1; priority := "High" |});
  ("Night light", {| power := 4; hours := 1; quantity := 1; priority := "Medium" |})
].

(** The rows the optimizer returns for [two_appliances] and a budget of two
    million, the default of the budget field. *)
Definition two_appliances_results : list scenario_result :=
  Eval vm_compute in
    match optimization_results two_appliances 2000000 with
    | inr results => results
    | inl _ => []
    end.


(** ** The working set (the Load Calculator page) *)

(** [d[key]] and [key in d] on a dictionary kept in insertion order. *)
Fixpoint assoc {V : Type} (key : string) (d : list (string * V)) : option V :=
  match d with
  | [] => None
  | (k, v) :: rest => if String.eqb k key then Some v else assoc key rest
  end.

Definition has_key {V : Type} (key : string) (d : list (string * V)) : bool :=
  match assoc key d with
  | Some _ => true
  | None => false
  end.

(** One turn of the loop over [selected_appliances]: a name that is already
    in the working set is left alone, a new one is stored with the catalogue
    figures and quantity 1.  [None] is the [KeyError] of
    [APPLIANCES_DB[appliance]]. *)
Definition select_appliance (data : appliances) (key : string) : option appliances :=
  if has_key key data then Some data
  else c ← assoc key APPLIANCES_DB; Some (data ++ [(key, selected_entry c)]).

Fixpoint add_selected (selected_appliances : list string) (data : appliances)
  : option appliances :=
  match selected_appliances with
  | [] => Some data
  | key :: rest => data' ← select_appliance data key; add_selected rest data'
  end.

(** The body of the "Add Custom Appliance" form. *)
Definition add_custom (custom_name : string) (custom_power custom_hours : Q)
    (custom_priority : string) (data : appliances) : appliances :=
  if negb (String.eqb custom_name "") && negb (has_key custom_name data)
  then data ++ [(custom_name,
                 {| power := custom_power; hours := custom_hours; quantity := 1;
                    priority := custom_priority |})]
  else data.

(** In-place assignment to a field of [data[key]]; the position of the
    entry is kept.  [None] is the [KeyError] of a key that is not there. *)
Definition update_entry (f : appliance → appliance) (key : string) (data : appliances)
  : option appliances :=
  if has_key key data
  then Some (map (λ item : string * appliance,
                    if String.eqb item.1 key then (item.1, f item.2) else item) data)
  else None.


Definition set_hours (key : string) (h : Q) : appliances → option appliances :=
  update_entry (λ e, {| power := power e; hours := h; quantity := quantity e;
                        priority := priority e |}) key.

Definition set_priority (key : string) (p : string) : appliances → option appliances :=
  update_entry (λ e, {| power := power e; hours := hours e; quantity := quantity e;
                        priority := p |}) key.

(** [del data[key]]. *)
Definition delete_appliance (key : string) (data : appliances) : option appliances :=
  if has_key key data
  then Some (List.filter (λ item : string * appliance, negb (String.eqb item.1 key)) data)
  else None.

(** ** The system estimate (the Solar Sizing page) *)

(** [Series.idxmin()] over the default range index: the position of the
    first smallest value, none for an empty column. *)
Fixpoint idxmin_from (best_i : nat) (best : Q) (i : nat) (values : list Q) : nat :=
  match values with
  | [] => best_i
  | v :: rest =>
    if Qle_bool best v then idxmin_from best_i best (S i) rest
    else idxmin_from i v (S i) rest
  end.

Definition idxmin (values : list Q) : option nat :=
  match values with
  | [] => None
  | v :: rest => Some (idxmin_from 0 v 1 rest)
  end.

Record system_estimate : Set := {
  est_best_option : recommendation;
  est_panel_cost : Q;
  est_inverter_cost : Q;
  est_battery_cost : Q;
  est_installation_cost : Q;
  est_total_system_cost : Q;
  est_monthly_savings : Q;
  est_payback_months : Q;
  est_savings_20_years : Q
}.

(** What a run of the page ends in: the warning and [st.stop()] for an
    empty working set, an exception of the calculation, pandas' [ValueError]
    for [idxmin] of an empty column, or the figures it shows. *)
Inductive outcome (A : Type) : Type :=
| Stopped
| Raised (e : exn)
| EmptyColumn
| Rendered (a : A).

Arguments Stopped {A}.
Arguments Raised {A} e.
Arguments EmptyColumn {A}.
Arguments Rendered {A} a.

Definition solar_sizing_page (appliances_data : appliances) (location : string)
    (autonomy_days : Z) : outcome system_estimate :=
  match appliances_data with
  | [] => Stopped
  | _ :: _ =>
    let '(total_watts, total_kwh) := calculate_daily_consumption appliances_data in
    match calculate_solar_system total_kwh location autonomy_days with
    | inl e => Raised e
    | inr (required_kwp, battery_kwh, solar_irradiance) =>
      match recommend_panels required_kwp with
      | inl e => Raised e
      | inr recommendations_df =>
        match i ← idxmin (map Cost_per_Watt recommendations_df); recommendations_df !! i with
        | None => EmptyColumn
        | Some best_option =>
          let panel_cost := inject_Z (Total_Cost best_option) in
          let inverter_cost := required_kwp * 200000 in
          let battery_cost := battery_kwh * 150000 in
          let installation_cost := panel_cost * 0.3 in
          let total_system_cost :=
            panel_cost + inverter_cost + battery_cost + installation_cost in
          let monthly_savings := total_kwh * 30 * 100 in
          match py_div total_system_cost monthly_savings with
          | inl e => Raised e
          | inr payback_months =>
            Rendered {|
              est_best_option := best_option;
              est_panel_cost := panel_cost;
              est_inverter_cost := inverter_cost;
              est_battery_cost := battery_cost;
              est_installation_cost := installation_cost;
              est_total_system_cost := total_system_cost;
              est_monthly_savings := monthly_savings;
              est_payback_months := payback_months;
              est_savings_20_years := monthly_savings * 240 - total_system_cost
            |}
          end
        end
      end
    end
  end.

(** ** Closed forms used by the further properties *)

(** The row the recommender builds for a catalogue entry of non-zero
    wattage. *)
Definition panel_row (required_kwp : Q) (item : string * panel) : recommendation :=
  let panel_kw := watts item.2 / 1000 in
  let num_panels := Qceiling (required_kwp / panel_kw) in
  {| Panel_Type := item.1;
     Number_of_Panels := num_panels;
     Total_Capacity_kW := round2 (inject_Z num_panels * panel_kw);
     Total_Cost := round_half_even (inject_Z num_panels * price item.2);
     Cost_per_Watt := round2 (price item.2 / watts item.2);
     Efficiency := efficiency item.2;
     Warranty_Years := warranty item.2 |}.

(** The optimizer's estimate as a function of the daily energy: sizing for
    Lagos (4.5 kWh/m2/day) with two autonomy days. *)
Definition scenario_cost (daily_kwh : Q) : Q :=
  let required_kwp := daily_kwh / (4.5 * 0.85) in
  let battery_kwh := daily_kwh * inject_Z 2 in
  required_kwp * 300000 + required_kwp * 200000 + battery_kwh * 150000
  + required_kwp * 300000 * 0.3.

Definition scenario_row (appliances_data : appliances) (max_budget : Q)
    (scenario : string * list string) : scenario_result :=
  let total_kwh := scenario_daily_kwh appliances_data scenario.2 in
  {| Scenario := scenario.1;
     Daily_kWh := round2 total_kwh;
     Solar_kWp := round2 (total_kwh / (4.5 * 0.85));
     Est_Cost := round_half_even (scenario_cost total_kwh);
     Within_Budget := Qle_bool (scenario_cost total_kwh) max_budget;
     Monthly_Savings := round_half_even (total_kwh * 30 * 100) |}.

(** The keys of a dictionary are pairwise different. *)
Definition unique_keys {V : Type} (d : list (string * V)) : Prop := NoDup d.*1.

(** The priorities an appliance can have without being marked "Remove". *)
Definition kept_priority (item : string * appliance) : Prop :=
  priority item.2 ∈ ["High"; "Medium"; "Low"].

(** The catalogue entry with the lowest price per watt. *)
Definition cheapest_panel : string * panel :=
  ("Polycrystalline 400W",
   {| watts := 400; price := 95000; efficiency := 18; warranty := 20 |}).

(** * Properties *)

(** ** Arithmetic helpers *)

Lemma py_div_nonzero (a b : Q) : ¬ b == 0 → py_div a b = mret (a / b).
Proof.
  intros Hb. unfold py_div.
  destruct (Qeq_bool b 0) eqn:E; [|reflexivity].
  apply Qeq_bool_iff in E. contradiction.
Qed.

Lemma py_div_zero (a b : Q) : b == 0 → py_div a b = raise ZeroDivisionError.
Proof.
  intros Hb. unfold py_div.
  apply Qeq_bool_iff in Hb. now rewrite Hb.
Qed.

(** ** Consumption calculator *)




(** ** Solar sizing calculator *)

(** With a non-zero irradiance the sizing returns the three figures. *)
Lemma sizing_returns (cities : gmap string Q) (daily_kwh : Q) (location : string)
    (autonomy_days : Z) :
  ¬ default 5.0 (cities !! location) == 0 →
  calculate_solar_system_with cities daily_kwh location autonomy_days
  = mret (daily_kwh / (default 5.0 (cities !! location) * 0.85),
          daily_kwh * inject_Z autonomy_days,
          default 5.0 (cities !! location)).
Proof.
  intros Hirr. unfold calculate_solar_system_with.
  rewrite py_div_nonzero; [reflexivity|].
  intros H0. apply Hirr.
  destruct (Qmult_integral _ _ H0) as [H|H]; [exact H | discriminate H].
Qed.

Lemma city_irradiance_range :
  Forall (λ entry : string * Q, 4.2 <= entry.2 ∧ entry.2 <= 6.0) city_irradiance.
Proof. repeat constructor; simpl; discriminate. Qed.

Lemma NIGERIAN_CITIES_range (location : string) (irradiance : Q) :
  NIGERIAN_CITIES !! location = Some irradiance →
  4.2 <= irradiance ∧ irradiance <= 6.0.
Proof.
  intros Hl. apply elem_of_list_to_map_2 in Hl.
  pose proof city_irradiance_range as Hall.
  rewrite Forall_forall in Hall. exact (Hall _ Hl).
Qed.

(** Whatever the location, the irradiance the function works with lies
    between 4.2 and 6.0. *)
Lemma irradiance_used_range (location : string) :
  4.2 <= default 5.0 (NIGERIAN_CITIES !! location) ∧
  default 5.0 (NIGERIAN_CITIES !! location) <= 6.0.
Proof.
  destruct (NIGERIAN_CITIES !! location) as [irr|] eqn:E; simpl.
  - exact (NIGERIAN_CITIES_range _ _ E).
  - split; discriminate.
Qed.

Lemma irradiance_used_nonzero (location : string) :
  ¬ default 5.0 (NIGERIAN_CITIES !! location) == 0.
Proof.
  destruct (irradiance_used_range location) as [Hlo _]. intros H0.
  rewrite H0 in Hlo. revert Hlo. apply Qlt_not_le. reflexivity.
Qed.

(** C8. A location that is not a key of the city table does not make the
    sizing fail: it works with the default irradiance 5.0 and returns it as
    the third component. *)
Theorem C8_unknown_location_default (daily_kwh : Q) (location : string)
    (autonomy_days : Z) :
  NIGERIAN_CITIES !! location = None →
  calculate_solar_system daily_kwh location autonomy_days
  = mret (daily_kwh / (5.0 * 0.85), daily_kwh * inject_Z autonomy_days, 5.0).
Proof.
  intros Hnone. unfold calculate_solar_system.
  rewrite sizing_returns; rewrite Hnone; [reflexivity | discriminate].
Qed.

Lemma C8_unknown_location_default_witness :
  calculate_solar_system 10 "Atlantis" 2
  = mret (10 / (5.0 * 0.85), 10 * inject_Z 2, 5.0).
Proof.
  apply (C8_unknown_location_default 10 "Atlantis" 2%Z).
  vm_compute. reflexivity.
Defined.

(** C10. For every location the irradiance used is the table's value for
    that key or the default 5.0; the table's values lie between 4.2 and 6.0;
    so the irradiance used is strictly positive, the divisor is not zero and
    the sizing returns for every argument. *)
Theorem C10_irradiance_positive :
  ∀ (daily_kwh : Q) (location : string) (autonomy_days : Z),
    Forall (λ entry : string * Q, 4.2 <= entry.2 ∧ entry.2 <= 6.0) city_irradiance
    ∧ ∃ required_kwp battery_kwh irradiance_used : Q,
        calculate_solar_system daily_kwh location autonomy_days
        = mret (required_kwp, battery_kwh, irradiance_used)
        ∧ (NIGERIAN_CITIES !! location = Some irradiance_used
           ∨ NIGERIAN_CITIES !! location = None ∧ irradiance_used = 5.0)
        ∧ 4.2 <= irradiance_used ∧ irradiance_used <= 6.0
        ∧ 0 < irradiance_used
        ∧ ¬ irradiance_used * 0.85 == 0
        ∧ required_kwp = daily_kwh / (irradiance_used * 0.85).
Proof.
  intros d loc a. split; [exact city_irradiance_range|].
  pose proof (irradiance_used_range loc) as [Hlo Hhi].
  pose proof (irradiance_used_nonzero loc) as Hnz.
  eexists _, _, _. split.
  { unfold calculate_solar_system. apply sizing_returns, Hnz. }
  split; [|split; [exact Hlo|split; [exact Hhi|split; [|split; [|reflexivity]]]]].
  - destruct (NIGERIAN_CITIES !! loc); simpl; [left|right]; auto.
  - eapply Qlt_le_trans; [|exact Hlo]. reflexivity.
  - intros H0. apply Hnz.
    destruct (Qmult_integral _ _ H0) as [H|H]; [exact H | discriminate H].
Qed.

(** ** Panel recommender *)


(** What one turn of the loop appends for a panel of positive wattage. *)
Lemma recommend_step_returns (required_kwp : Q) (acc : list recommendation)
    (panel_name : string) (panel_data : panel) :
  0 < watts panel_data →
  recommend_step required_kwp acc (panel_name, panel_data)
  = mret (acc ++ [{|
      Panel_Type := panel_name;
      Number_of_Panels := Qceiling (required_kwp / (watts panel_data / 1000));
      Total_Capacity_kW :=
        round2 (inject_Z (Qceiling (required_kwp / (watts panel_data / 1000)))
                * (watts panel_data / 1000));
      Total_Cost :=
        round_half_even
          (inject_Z (Qceiling (required_kwp / (watts panel_data / 1000)))
           * price panel_data);
      Cost_per_Watt := round2 (price panel_data / watts panel_data);
      Efficiency := efficiency panel_data;
      Warranty_Years := warranty panel_data
    |}]).
Proof.
  intros Hw. unfold recommend_step.
  assert (Hnz : ¬ watts panel_data == 0).
  { intros H0. rewrite H0 in Hw. discriminate Hw. }
  rewrite (py_div_nonzero required_kwp (watts panel_data / 1000)).
  - simpl. rewrite (py_div_nonzero _ _ Hnz). reflexivity.
  - intros H0. apply Hnz.
    destruct (Qmult_integral _ _ H0) as [H|H]; [exact H | discriminate H].
Qed.

Lemma SOLAR_PANELS_positive :
  Forall (λ item : string * panel, 0 < watts item.2) SOLAR_PANELS.
Proof. repeat constructor. Qed.

(** ** Scenario optimizer *)

(** The optimizer sizes every scenario for Lagos with two autonomy days. *)
Lemma sizing_for_Lagos (daily_kwh : Q) :
  calculate_solar_system daily_kwh "Lagos" default_autonomy_days
  = mret (daily_kwh / (4.5 * 0.85), daily_kwh * inject_Z 2, 4.5).
Proof.
  unfold calculate_solar_system.
  rewrite sizing_returns by apply irradiance_used_nonzero.
  reflexivity.
Qed.

(** [max_from] returns one of the items it was given, and none of them
    has a greater key. *)
Lemma max_from_spec {A : Type} (key : A → Q) (items : list A) : ∀ best : A,
  In (max_from key best items) (best :: items)
  ∧ Forall (λ x, key x <= key (max_from key best items)) (best :: items).
Proof.
  induction items as [|x items IH]; intros best.
  - simpl. split; [now left|]. constructor; [apply Qle_refl | constructor].
  - cbn [max_from]. destruct (Qle_bool (key x) (key best)) eqn:E.
    + apply Qle_bool_iff in E.
      destruct (IH best) as [Hin Hall]. inversion Hall as [|? ? Hbest Hrest]; subst.
      split.
      * destruct Hin as [<-|Hin]; [now left | right; now right].
      * constructor; [exact Hbest|]. constructor; [|exact Hrest].
        now apply Qle_trans with (key best).
    + assert (Hlt : key best < key x).
      { apply Qnot_le_lt. intros Hle. apply Qle_bool_iff in Hle. congruence. }
      destruct (IH x) as [Hin Hall]. inversion Hall as [|? ? Hx Hrest]; subst.
      split.
      * right. exact Hin.
      * constructor; [|constructor; [exact Hx | exact Hrest]].
        apply Qle_trans with (key x); [now apply Qlt_le_weak | exact Hx].
Qed.



(** ** Scenario ordering *)








(** ** Vendor directory lookup *)

(** The display loop started from the vendors already shown. *)
Lemma shown_loop (service_type : string) (stored : list vendor) :
  ∀ shown : list vendor,
    fold_left
      (fun shown v => if vendor_matches service_type v then shown ++ [v] else shown)
      stored shown
    = shown ++ List.filter (vendor_matches service_type) stored.
Proof.
  induction stored as [|v stored IH]; intros shown; simpl.
  - now rewrite app_nil_r.
  - rewrite IH. destruct (vendor_matches service_type v); [|reflexivity].
    now rewrite <- app_assoc.
Qed.

Lemma vendor_matches_iff (service_type : string) (v : vendor) :
  vendor_matches service_type v = true
  ↔ service_type = "All" ∨ speciality v = service_type.
Proof.
  unfold vendor_matches. rewrite orb_true_iff, !String.eqb_eq. reflexivity.
Qed.

Lemma filter_all_true {A : Type} (f : A → bool) (l : list A) :
  (∀ x, f x = true) → List.filter f l = l.
Proof.
  intros Hf. induction l as [|x l IH]; simpl; [reflexivity|].
  now rewrite Hf, IH.
Qed.

(** C9. The vendors shown for a city and a service type are the stored
    vendors of that city, in table order, that match the filter: all of
    them for "All", else those whose speciality is the service type; a city
    that is not in the table, or one stored with no vendor, shows none. *)
Theorem C9_vendor_lookup :
  ∀ (vendors : gmap string (list vendor)) (selected_city service_type : string),
    shown_vendors_with vendors selected_city service_type
    = List.filter (vendor_matches service_type) (default [] (vendors !! selected_city))
    ∧ (∀ v : vendor,
         In v (shown_vendors_with vendors selected_city service_type)
         ↔ In v (default [] (vendors !! selected_city))
           ∧ (service_type = "All" ∨ speciality v = service_type))
    ∧ (service_type = "All" →
       shown_vendors_with vendors selected_city service_type
       = default [] (vendors !! selected_city))
    ∧ (vendors !! selected_city = None →
       shown_vendors_with vendors selected_city service_type = [])
    ∧ (vendors !! selected_city = Some [] →
       shown_vendors_with vendors selected_city service_type = []).
Proof.
  intros vendors city service.
  assert (Heq : shown_vendors_with vendors city service
                = List.filter (vendor_matches service) (default [] (vendors !! city))).
  { unfold shown_vendors_with, city_vendors. now rewrite shown_loop. }
  split; [exact Heq|]. rewrite Heq. split; [|split; [|split]].
  - intros v. rewrite filter_In, vendor_matches_iff. reflexivity.
  - intros ->. apply filter_all_true. intros v. reflexivity.
  - intros ->. reflexivity.
  - intros ->. reflexivity.
Qed.

Lemma C9_vendor_lookup_witness :
  shown_vendors "Jos" "Residential" = []
  ∧ shown_vendors_with (<["Jos" := []]> VENDORS) "Jos" "All" = []
  ∧ shown_vendors "Kano" "All" = default [] (VENDORS !! "Kano").
Proof.
  destruct (C9_vendor_lookup VENDORS "Jos" "Residential") as (_ & _ & _ & Habsent & _).
  destruct (C9_vendor_lookup (<["Jos" := []]> VENDORS) "Jos" "All")
    as (_ & _ & _ & _ & Hempty).
  destruct (C9_vendor_lookup VENDORS "Kano" "All") as (_ & _ & Hall & _).
  split; [|split].
  - apply Habsent. vm_compute. reflexivity.
  - apply Hempty. vm_compute. reflexivity.
  - apply Hall. reflexivity.
Defined.

(** * Further properties of the code *)

(** ** Consumption totals *)








(** X2. A working set in which no entry has a positive quantity (zero or
    negative quantities, or no entry at all) gives exactly zero watts and
    zero kWh, whatever the other fields hold. *)
Theorem X2_no_positive_quantity_zero_demand (appliances_data : appliances) :
  Forall (λ item : string * appliance, (quantity item.2 <= 0)%Z) appliances_data →
  calculate_daily_consumption appliances_data = (0, 0).
Proof.
  unfold calculate_daily_consumption.
  induction 1 as [|item l Hq _ IH]; [reflexivity|].
  cbn [fold_left]. unfold consumption_step at 2.
  destruct (Z.ltb_spec 0 (quantity item.2)) as [Hpos|_]; [lia | exact IH].
Qed.

Lemma X2_no_positive_quantity_zero_demand_witness :
  calculate_daily_consumption
    [("Iron", {| power := 1200; hours := 1; quantity := 0; priority := "Low" |});
     ("Returned", {| power := 60; hours := 6; quantity := -1; priority := "High" |})]
  = (0, 0).
Proof.
  apply X2_no_positive_quantity_zero_demand.
  repeat constructor; simpl; lia.
Defined.



(** ** Sizing *)

Lemma sizing_value (daily_kwh : Q) (location : string) (autonomy_days : Z) :
  calculate_solar_system daily_kwh location autonomy_days
  = mret (daily_kwh / (default 5.0 (NIGERIAN_CITIES !! location) * 0.85),
          daily_kwh * inject_Z autonomy_days,
          default 5.0 (NIGERIAN_CITIES !! location)).
Proof. apply sizing_returns, irradiance_used_nonzero. Qed.






(** ** Panel rows *)



(** Over a table of positive watt ratings the recommender returns the
    closed-form row of every entry, in table order. *)
Lemma recommend_rows (panels : list (string * panel)) (required_kwp : Q) :
  Forall (λ item : string * panel, 0 < watts item.2) panels →
  recommend_panels_with panels required_kwp = mret (map (panel_row required_kwp) panels).
Proof.
  intros Hpos. unfold recommend_panels_with.
  change (map (panel_row required_kwp) panels)
    with ([] ++ map (panel_row required_kwp) panels).
  generalize (@nil recommendation).
  induction Hpos as [|[pname pdata] panels Hw _ IH]; intros acc.
  - simpl. now rewrite app_nil_r.
  - cbn [for_loop]. rewrite (recommend_step_returns _ _ _ _ Hw). simpl mbind.
    rewrite IH. cbn [map]. now rewrite <- app_assoc.
Qed.




(** ** The system estimate of the Solar Sizing page *)

Lemma best_option_row (required_kwp : Q) :
  (i ← idxmin (map Cost_per_Watt (map (panel_row required_kwp) SOLAR_PANELS));
   map (panel_row required_kwp) SOLAR_PANELS !! i)
  = Some (panel_row required_kwp cheapest_panel).
Proof.
  change (map Cost_per_Watt (map (panel_row required_kwp) SOLAR_PANELS))
    with (map (λ item : string * panel, round2 (price item.2 / watts item.2))
              SOLAR_PANELS).
  assert (Hmin : idxmin (map (λ item : string * panel,
                                round2 (price item.2 / watts item.2)) SOLAR_PANELS)
                 = Some 4%nat) by (vm_compute; reflexivity).
  rewrite Hmin. reflexivity.
Qed.

(** The page up to the payback division, for a working set that is not
    empty. *)
Lemma solar_sizing_page_unfold (appliances_data : appliances) (location : string)
    (autonomy_days : Z) :
  appliances_data ≠ [] →
  let total_kwh := (calculate_daily_consumption appliances_data).2 in
  let required_kwp := total_kwh / (default 5.0 (NIGERIAN_CITIES !! location) * 0.85) in
  let battery_kwh := total_kwh * inject_Z autonomy_days in
  let best_option := panel_row required_kwp cheapest_panel in
  let panel_cost := inject_Z (Total_Cost best_option) in
  let total_system_cost :=
    panel_cost + required_kwp * 200000 + battery_kwh * 150000 + panel_cost * 0.3 in
  let monthly_savings := total_kwh * 30 * 100 in
  solar_sizing_page appliances_data location autonomy_days
  = match py_div total_system_cost monthly_savings with
    | inl e => Raised e
    | inr payback_months =>
      Rendered {|
        est_best_option := best_option;
        est_panel_cost := panel_cost;
        est_inverter_cost := required_kwp * 200000;
        est_battery_cost := battery_kwh * 150000;
        est_installation_cost := panel_cost * 0.3;
        est_total_system_cost := total_system_cost;
        est_monthly_savings := monthly_savings;
        est_payback_months := payback_months;
        est_savings_20_years := monthly_savings * 240 - total_system_cost
      |}
    end.
Proof.
  intros Hne. destruct appliances_data as [|item rest]; [contradiction|].
  unfold solar_sizing_page.
  destruct (calculate_daily_consumption (item :: rest)) as [total_watts total_kwh].
  cbn [snd]. rewrite sizing_value. unfold mret, result_ret. cbv beta iota.
  unfold recommend_panels. rewrite (recommend_rows _ _ SOLAR_PANELS_positive).
  unfold mret, result_ret. cbv beta iota.
  rewrite best_option_row. reflexivity.
Qed.

(** X9. A working set that is not empty but whose daily energy is zero
    (every quantity or every hours field at zero) passes the page's
    emptiness test and makes the payback division raise
    [ZeroDivisionError]. *)
Theorem X9_zero_energy_payback_raises (appliances_data : appliances)
    (location : string) (autonomy_days : Z) :
  appliances_data ≠ [] →
  (calculate_daily_consumption appliances_data).2 == 0 →
  solar_sizing_page appliances_data location autonomy_days = Raised ZeroDivisionError.
Proof.
  intros Hne Hzero.
  rewrite (solar_sizing_page_unfold _ _ _ Hne). cbv zeta.
  rewrite py_div_zero; [reflexivity|]. rewrite Hzero. reflexivity.
Qed.

Lemma X9_zero_energy_payback_raises_witness :
  solar_sizing_page
    [("Laptop", {| power := 65; hours := 8; quantity := 0; priority := "High" |})]
    "Lagos" 2
  = Raised ZeroDivisionError.
Proof.
  apply X9_zero_energy_payback_raises.
  - discriminate.
  - reflexivity.
Defined.



(** ** The working set *)

Lemma assoc_app {V : Type} (key : string) (a b : list (string * V)) :
  assoc key (a ++ b)
  = match assoc key a with
    | Some v => Some v
    | None => assoc key b
    end.
Proof.
  induction a as [|[k v] a IH]; simpl; [reflexivity|].
  destruct (String.eqb k key); [reflexivity | exact IH].
Qed.

Lemma assoc_None {V : Type} (key : string) (d : list (string * V)) :
  assoc key d = None ↔ key ∉ d.*1.
Proof.
  induction d as [|[k v] d IH]; simpl.
  - split; [intros _; apply not_elem_of_nil | reflexivity].
  - rewrite not_elem_of_cons. destruct (String.eqb_spec k key) as [->|Hne].
    + split; [discriminate | intros [Hk _]; contradiction].
    + rewrite IH. split; [intros Hd; split; [congruence | exact Hd] | tauto].
Qed.

Lemma has_key_false {V : Type} (key : string) (d : list (string * V)) :
  has_key key d = false ↔ key ∉ d.*1.
Proof.
  unfold has_key. rewrite <- assoc_None.
  destruct (assoc key d); split; congruence.
Qed.

Lemma has_key_true {V : Type} (key : string) (d : list (string * V)) :
  has_key key d = true ↔ ∃ v, assoc key d = Some v.
Proof.
  unfold has_key. destruct (assoc key d) as [v|].
  - split; [intros _; now exists v | reflexivity].
  - split; [discriminate | intros [v Hv]; discriminate].
Qed.

Lemma unique_keys_snoc {V : Type} (d : list (string * V)) (key : string) (v : V) :
  unique_keys d → has_key key d = false → unique_keys (d ++ [(key, v)]).
Proof.
  unfold unique_keys. intros Hd Hk. apply has_key_false in Hk.
  rewrite fmap_app. apply NoDup_app. split; [exact Hd|]. split.
  - intros k Hin Hin'. simpl in Hin'. apply list_elem_of_singleton in Hin'.
    subst. contradiction.
  - simpl. apply NoDup_singleton.
Qed.

Lemma select_appliance_cases (data : appliances) (key : string) (data' : appliances) :
  select_appliance data key = Some data' →
  (has_key key data = true ∧ data' = data)
  ∨ (has_key key data = false
     ∧ ∃ c, assoc key APPLIANCES_DB = Some c ∧ data' = data ++ [(key, selected_entry c)]).
Proof.
  unfold select_appliance. destruct (has_key key data).
  - intros [= <-]. now left.
  - destruct (assoc key APPLIANCES_DB) as [c|]; simpl; [|discriminate].
    intros [= <-]. right. split; [reflexivity|]. now exists c.
Qed.

(** Selecting only appends: what was in the working set stays in front. *)
Lemma add_selected_extends (selected : list string) : ∀ data data' : appliances,
  add_selected selected data = Some data' → ∃ added, data' = data ++ added.
Proof.
  induction selected as [|key rest IH]; intros data data'; simpl.
  - intros [= <-]. exists []. now rewrite app_nil_r.
  - destruct (select_appliance data key) as [d1|] eqn:E; simpl; [|discriminate].
    intros Hrest. destruct (IH _ _ Hrest) as [added ->].
    destruct (select_appliance_cases _ _ _ E) as [[_ ->]|(_ & c & _ & ->)].
    + now exists added.
    + exists ([(key, selected_entry c)] ++ added). now rewrite app_assoc.
Qed.

Lemma add_selected_unique (selected : list string) : ∀ data data' : appliances,
  unique_keys data → add_selected selected data = Some data' → unique_keys data'.
Proof.
  induction selected as [|key rest IH]; intros data data' Hu; simpl.
  - now intros [= <-].
  - destruct (select_appliance data key) as [d1|] eqn:E; simpl; [|discriminate].
    apply IH.
    destruct (select_appliance_cases _ _ _ E) as [[_ ->]|(Hk & c & _ & ->)];
      [exact Hu | now apply unique_keys_snoc].
Qed.

Lemma update_entry_keys (f : appliance → appliance) (key : string) (data : appliances) :
  (map (λ item : string * appliance,
          if String.eqb item.1 key then (item.1, f item.2) else item) data).*1
  = data.*1.
Proof.
  induction data as [|[k e] data IH]; [reflexivity|].
  cbn [map]. rewrite !fmap_cons, IH. cbn [fst snd].
  now destruct (String.eqb k key).
Qed.

Lemma delete_keys (key : string) (data : appliances) :
  NoDup data.*1 →
  NoDup (List.filter (λ item : string * appliance, negb (String.eqb item.1 key)) data).*1.
Proof.
  induction data as [|[k e] data IH]; simpl; [constructor|].
  intros Hnd. apply NoDup_cons in Hnd as [Hk Hnd].
  destruct (String.eqb k key); simpl; [now apply IH|].
  apply NoDup_cons. split; [|now apply IH].
  intros Hin. apply Hk.
  apply list_elem_of_fmap in Hin as ([k' e'] & -> & Hin).
  apply list_elem_of_In, filter_In in Hin as [Hin _].
  apply list_elem_of_fmap. exists (k', e'). split; [reflexivity|].
  now apply list_elem_of_In.
Qed.

(** X11. No operation of the Load Calculator page creates a second entry
    under a name: starting from pairwise different keys, selecting catalogue
    appliances, adding a custom appliance, assigning a field and deleting an
    entry all leave the keys pairwise different; assigning a field also
    keeps the keys and their order. *)
Theorem X11_operations_keep_keys_unique (data : appliances) :
  unique_keys data →
  (∀ selected data', add_selected selected data = Some data' → unique_keys data')
  ∧ (∀ custom_name custom_power custom_hours custom_priority,
       unique_keys (add_custom custom_name custom_power custom_hours custom_priority data))
  ∧ (∀ f key data', update_entry f key data = Some data' →
       unique_keys data' ∧ data'.*1 = data.*1)
  ∧ (∀ key data', delete_appliance key data = Some data' → unique_keys data').
Proof.
  intros Hu. split; [|split; [|split]].
  - intros selected data'. now apply add_selected_unique.
  - intros n p h pr. unfold add_custom.
    destruct (negb (String.eqb n "")); simpl; [|exact Hu].
    destruct (has_key n data) eqn:Hk; simpl; [exact Hu|].
    now apply unique_keys_snoc.
  - intros f key data'. unfold update_entry.
    destruct (has_key key data); [|discriminate]. intros [= <-].
    unfold unique_keys. rewrite update_entry_keys. now split.
  - intros key data'. unfold delete_appliance.
    destruct (has_key key data); [|discriminate]. intros [= <-].
    now apply delete_keys.
Qed.

Lemma X11_operations_keep_keys_unique_witness :
  (∀ selected data', add_selected selected two_appliances = Some data' → unique_keys data')
  ∧ (∀ custom_name custom_power custom_hours custom_priority,
       unique_keys
         (add_custom custom_name custom_power custom_hours custom_priority two_appliances))
  ∧ (∀ f key data', update_entry f key two_appliances = Some data' →
       unique_keys data' ∧ data'.*1 = two_appliances.*1)
  ∧ (∀ key data', delete_appliance key two_appliances = Some data' → unique_keys data').
Proof.
  apply (X11_operations_keep_keys_unique two_appliances).
  unfold unique_keys. apply (bool_decide_unpack _). vm_compute. exact I.
Defined.

Lemma assoc_extends {V : Type} (key : string) (d added : list (string * V)) (v : V) :
  assoc key d = Some v → assoc key (d ++ added) = Some v.
Proof. intros H. now rewrite assoc_app, H. Qed.

Lemma has_key_extends {V : Type} (key : string) (d added : list (string * V)) :
  has_key key d = true → has_key key (d ++ added) = true.
Proof.
  rewrite !has_key_true. intros [v Hv]. exists v. now apply assoc_extends.
Qed.

Lemma assoc_snoc_new {V : Type} (key : string) (d : list (string * V)) (v : V) :
  has_key key d = false → assoc key (d ++ [(key, v)]) = Some v.
Proof.
  intros Hk. rewrite assoc_app.
  apply has_key_false, assoc_None in Hk. rewrite Hk. simpl.
  now rewrite String.eqb_refl.
Qed.

Lemma add_selected_known (selected : list string) (data : appliances) :
  Forall (λ key, has_key key data = true) selected →
  add_selected selected data = Some data.
Proof.
  induction 1 as [|key rest Hk _ IH]; simpl; [reflexivity|].
  unfold select_appliance. rewrite Hk. simpl. exact IH.
Qed.

Lemma add_selected_has (selected : list string) : ∀ data data' : appliances,
  add_selected selected data = Some data' →
  Forall (λ key, has_key key data' = true) selected.
Proof.
  induction selected as [|key rest IH]; intros data data'; simpl; [constructor|].
  destruct (select_appliance data key) as [d1|] eqn:E; simpl; [|discriminate].
  intros Hrest. constructor; [|now apply (IH d1)].
  destruct (add_selected_extends _ _ _ Hrest) as [added ->].
  apply has_key_extends.
  destruct (select_appliance_cases _ _ _ E) as [[Hk ->]|(Hk & c & _ & ->)];
    [exact Hk|].
  apply has_key_true. exists (selected_entry c). now apply assoc_snoc_new.
Qed.

(** X12. Running the selection loop again, as every rerun of the page
    does, changes nothing: the entries already in the working set keep their
    place and their (possibly edited) fields, new entries are only appended,
    and a second run over the result returns it as it is. *)
Theorem X12_selection_keeps_entries (selected : list string) (data data' : appliances) :
  add_selected selected data = Some data' →
  (∃ added, data' = data ++ added)
  ∧ (∀ key e, assoc key data = Some e → assoc key data' = Some e)
  ∧ add_selected selected data' = Some data'.
Proof.
  intros Hsel. destruct (add_selected_extends _ _ _ Hsel) as [added ->].
  split; [now exists added|]. split.
  - intros key e. apply assoc_extends.
  - apply add_selected_known. now apply (add_selected_has _ data).
Qed.

Lemma X12_selection_keeps_entries_witness :
  (∃ added, two_appliances ++ [("Laptop", selected_entry
                                  {| cat_power := 65; cat_hours := 8;
                                     cat_priority := "High" |})]
            = two_appliances ++ added)
  ∧ (∀ key e, assoc key two_appliances = Some e →
       assoc key (two_appliances ++ [("Laptop", selected_entry
                                        {| cat_power := 65; cat_hours := 8;
                                           cat_priority := "High" |})]) = Some e)
  ∧ add_selected ["Laptop"; "Heater"]
      (two_appliances ++ [("Laptop", selected_entry
                             {| cat_power := 65; cat_hours := 8;
                                cat_priority := "High" |})])
    = Some (two_appliances ++ [("Laptop", selected_entry
                                  {| cat_power := 65; cat_hours := 8;
                                     cat_priority := "High" |})]).
Proof.
  apply (X12_selection_keeps_entries ["Laptop"; "Heater"] two_appliances).
  vm_compute. reflexivity.
Defined.

(** X13. When every selected name is a key of the appliance catalogue the
    selection loop does not fail; afterwards every selected name is in the
    working set, and a name that was not there before holds the catalogue's
    power, hours and priority with quantity 1. *)
Theorem X13_selection_stores_catalogue_figures (selected : list string) :
  ∀ data : appliances,
    Forall (λ key, has_key key APPLIANCES_DB = true) selected →
    ∃ data' : appliances,
      add_selected selected data = Some data'
      ∧ Forall (λ key, has_key key data' = true) selected
      ∧ ∀ key, In key selected → has_key key data = false →
          ∃ c, assoc key APPLIANCES_DB = Some c
               ∧ assoc key data' = Some (selected_entry c).
Proof.
  induction selected as [|key rest IH]; intros data Hcat.
  - exists data. split; [reflexivity|]. split; [constructor|]. intros k [].
  - apply Forall_cons in Hcat as [Hkey Hrest].
    apply has_key_true in Hkey as [c Hc].
    assert (Hstep : ∃ d1, select_appliance data key = Some d1).
    { unfold select_appliance. destruct (has_key key data); [now eexists|].
      rewrite Hc. now eexists. }
    destruct Hstep as [d1 Hd1].
    destruct (IH d1 Hrest) as (data' & Hsel & Hhas & Hnew).
    assert (Hall : add_selected (key :: rest) data = Some data').
    { simpl. rewrite Hd1. exact Hsel. }
    exists data'. split; [exact Hall|].
    split; [now apply (add_selected_has _ data)|].
    intros k Hin Hfresh.
    destruct (add_selected_extends _ _ _ Hsel) as [added ->].
    destruct (select_appliance_cases _ _ _ Hd1) as [[Hk ->]|(Hk & c' & Hc' & ->)].
    + destruct Hin as [->|Hin]; [congruence|]. now apply Hnew.
    + destruct (String.eqb_spec key k) as [->|Hne].
      * exists c'. split; [exact Hc'|]. apply assoc_extends. now apply assoc_snoc_new.
      * destruct Hin as [->|Hin]; [contradiction|]. apply Hnew; [exact Hin|].
        apply has_key_false. rewrite fmap_app. rewrite elem_of_app.
        apply has_key_false in Hfresh. intros [H|H]; [contradiction|].
        simpl in H. apply list_elem_of_singleton in H. congruence.
Qed.

Lemma X13_selection_stores_catalogue_figures_witness :
  ∃ data' : appliances,
    add_selected ["Ceiling Fan"; "Laptop"] two_appliances = Some data'
    ∧ Forall (λ key, has_key key data' = true) ["Ceiling Fan"; "Laptop"]
    ∧ ∀ key, In key ["Ceiling Fan"; "Laptop"] → has_key key two_appliances = false →
        ∃ c, assoc key APPLIANCES_DB = Some c
             ∧ assoc key data' = Some (selected_entry c).
Proof.
  apply (X13_selection_stores_catalogue_figures ["Ceiling Fan"; "Laptop"] two_appliances).
  repeat constructor.
Defined.

(** X14. The custom-appliance form ignores an empty name and a name that
    is already in the working set (the stored entry is not overwritten);
    any other name is appended with quantity 1 and every earlier entry is
    still found under its name. *)
Theorem X14_custom_appliance_never_overwrites
    (custom_name : string) (custom_power custom_hours : Q) (custom_priority : string)
    (data : appliances) :
  (custom_name = "" ∨ has_key custom_name data = true →
   add_custom custom_name custom_power custom_hours custom_priority data = data)
  ∧ (custom_name ≠ "" → has_key custom_name data = false →
     assoc custom_name
       (add_custom custom_name custom_power custom_hours custom_priority data)
     = Some {| power := custom_power; hours := custom_hours; quantity := 1;
               priority := custom_priority |})
  ∧ (∀ key e, assoc key data = Some e →
       assoc key (add_custom custom_name custom_power custom_hours custom_priority data)
       = Some e).
Proof.
  unfold add_custom. split; [|split].
  - intros [->|Hk]; [reflexivity|]. rewrite Hk. now rewrite andb_false_r.
  - intros Hne Hk. rewrite Hk. apply String.eqb_neq in Hne. rewrite Hne. simpl.
    now apply assoc_snoc_new.
  - intros key e He.
    destruct (negb (String.eqb custom_name "") && negb (has_key custom_name data));
      [now apply assoc_extends | exact He].
Qed.

Lemma X14_custom_appliance_never_overwrites_witness :
  add_custom "Heater" 2000 3 "Low" two_appliances = two_appliances
  ∧ add_custom "" 2000 3 "Low" two_appliances = two_appliances
  ∧ assoc "Freezer" (add_custom "Freezer" 200 24 "High" two_appliances)
    = Some {| power := 200; hours := 24; quantity := 1; priority := "High" |}.
Proof.
  destruct (X14_custom_appliance_never_overwrites "Heater" 2000 3 "Low" two_appliances)
    as [Hkeep _].
  destruct (X14_custom_appliance_never_overwrites "" 2000 3 "Low" two_appliances)
    as [Hempty _].
  destruct (X14_custom_appliance_never_overwrites "Freezer" 200 24 "High" two_appliances)
    as (_ & Hnew & _).
  split; [|split].
  - apply Hkeep. right. reflexivity.
  - apply Hempty. left. reflexivity.
  - apply Hnew; [discriminate | reflexivity].
Defined.

Lemma assoc_update (f : appliance → appliance) (key k : string) (data : appliances) :
  assoc k (map (λ item : string * appliance,
                  if String.eqb item.1 key then (item.1, f item.2) else item) data)
  = if String.eqb key k then f <$> assoc k data else assoc k data.
Proof.
  induction data as [|[n e] data IH]; cbn [map assoc fst snd].
  - now destruct (String.eqb key k).
  - destruct (String.eqb n key) eqn:Enk; cbn [assoc]; rewrite IH;
      destruct (String.eqb n k) eqn:Enn; destruct (String.eqb key k) eqn:Ekk;
      try reflexivity; exfalso;
      rewrite ?String.eqb_eq, ?String.eqb_neq in *; congruence.
Qed.

Lemma assoc_delete (key k : string) (data : appliances) :
  assoc k (List.filter (λ item : string * appliance, negb (String.eqb item.1 key)) data)
  = if String.eqb key k then None else assoc k data.
Proof.
  induction data as [|[n e] data IH]; cbn [List.filter assoc fst snd].
  - now destruct (String.eqb key k).
  - destruct (String.eqb n key) eqn:Enk; cbn [negb assoc]; rewrite IH;
      destruct (String.eqb n k) eqn:Enn; destruct (String.eqb key k) eqn:Ekk;
      try reflexivity; exfalso;
      rewrite ?String.eqb_eq, ?String.eqb_neq in *; congruence.
Qed.

(** X15. Assigning a field changes the entry under that name and no other;
    deleting a name removes that entry and no other; both are a [KeyError]
    for a name that is not in the working set. *)
Theorem X15_assignment_and_deletion_are_local
    (f : appliance → appliance) (key : string) (data : appliances) :
  (∀ data', update_entry f key data = Some data' →
     assoc key data' = f <$> assoc key data
     ∧ ∀ k, k ≠ key → assoc k data' = assoc k data)
  ∧ (∀ data', delete_appliance key data = Some data' →
       assoc key data' = None
       ∧ ∀ k, k ≠ key → assoc k data' = assoc k data)
  ∧ (has_key key data = false →
     update_entry f key data = None ∧ delete_appliance key data = None)
  ∧ (has_key key data = true →
     is_Some (update_entry f key data) ∧ is_Some (delete_appliance key data)).
Proof.
  unfold update_entry, delete_appliance. split; [|split; [|split]].
  - intros data'. destruct (has_key key data); [|discriminate]. intros [= <-].
    split.
    + rewrite assoc_update. now rewrite String.eqb_refl.
    + intros k Hne. rewrite assoc_update.
      apply String.eqb_neq in Hne. rewrite String.eqb_sym in Hne. now rewrite Hne.
  - intros data'. destruct (has_key key data); [|discriminate]. intros [= <-].
    split.
    + rewrite assoc_delete. now rewrite String.eqb_refl.
    + intros k Hne. rewrite assoc_delete.
      apply String.eqb_neq in Hne. rewrite String.eqb_sym in Hne. now rewrite Hne.
  - intros ->. now split.
  - intros ->. split; eexists; reflexivity.
Qed.

Lemma X15_assignment_and_deletion_are_local_witness :
  (assoc "Heater" (List.filter
                     (λ item : string * appliance, negb (String.eqb item.1 "Heater"))
                     two_appliances) = None
   ∧ ∀ k, k ≠ "Heater" →
       assoc k (List.filter
                  (λ item : string * appliance, negb (String.eqb item.1 "Heater"))
                  two_appliances)
       = assoc k two_appliances)
  ∧ (update_entry id "Kettle" two_appliances = None
     ∧ delete_appliance "Kettle" two_appliances = None).
Proof.
  destruct (X15_assignment_and_deletion_are_local id "Heater" two_appliances)
    as (_ & Hdel & _).
  destruct (X15_assignment_and_deletion_are_local id "Kettle" two_appliances)
    as (_ & _ & Hmissing & _).
  split.
  - apply Hdel. reflexivity.
  - apply Hmissing. reflexivity.
Defined.







(** ** The scenario rows *)

Lemma optimization_step_closed (appliances_data : appliances) (max_budget : Q)
    (results : list scenario_result) (scenario : string * list string) :
  optimization_step appliances_data max_budget results scenario
  = mret (if evaluated appliances_data scenario
          then results ++ [scenario_row appliances_data max_budget scenario]
          else results).
Proof.
  destruct scenario as [scenario_name priorities].
  unfold evaluated, optimization_step, scenario_row, scenario_daily_kwh, scenario_cost.
  cbn [fst snd].
  destruct (scenario_appliances appliances_data priorities) as [|item selected];
    [reflexivity|].
  destruct (calculate_daily_consumption (item :: selected)) as [total_watts total_kwh].
  cbn [fst snd]. rewrite sizing_for_Lagos. reflexivity.
Qed.

Lemma optimization_results_closed (appliances_data : appliances) (max_budget : Q) :
  optimization_results appliances_data max_budget
  = mret (map (scenario_row appliances_data max_budget)
              (List.filter (evaluated appliances_data) scenarios)).
Proof.
  unfold optimization_results.
  change (map (scenario_row appliances_data max_budget)
              (List.filter (evaluated appliances_data) scenarios))
    with ([] ++ map (scenario_row appliances_data max_budget)
                    (List.filter (evaluated appliances_data) scenarios)).
  generalize (@nil scenario_result). generalize scenarios.
  induction l as [|scenario todo IH]; intros acc.
  - simpl. now rewrite app_nil_r.
  - cbn [for_loop List.filter]. rewrite optimization_step_closed. simpl mbind.
    destruct (evaluated appliances_data scenario).
    + rewrite IH. cbn [map]. now rewrite <- app_assoc.
    + apply IH.
Qed.

(** X18. A higher budget changes nothing in the rows but the budget mark,
    and never takes the mark away: a scenario within the lower budget is
    within the higher one. *)
Theorem X18_budget_monotone (appliances_data : appliances) (budget budget' : Q) :
  budget <= budget' →
  ∃ results results' : list scenario_result,
    optimization_results appliances_data budget = mret results
    ∧ optimization_results appliances_data budget' = mret results'
    ∧ Forall2 (λ row row' : scenario_result,
                 Scenario row = Scenario row'
                 ∧ Daily_kWh row = Daily_kWh row'
                 ∧ Solar_kWp row = Solar_kWp row'
                 ∧ Est_Cost row = Est_Cost row'
                 ∧ Monthly_Savings row = Monthly_Savings row'
                 ∧ (Within_Budget row = true → Within_Budget row' = true))
              results results'.
Proof.
  intros Hb. eexists _, _.
  split; [apply optimization_results_closed|].
  split; [apply optimization_results_closed|].
  induction (List.filter (evaluated appliances_data) scenarios) as [|s l IH];
    cbn [map]; constructor; [|exact IH].
  repeat split. cbn [scenario_row Within_Budget].
  rewrite !Qle_bool_iff. intros Hfit. now apply Qle_trans with budget.
Qed.

Lemma X18_budget_monotone_witness :
  ∃ results results' : list scenario_result,
    optimization_results two_appliances 400000 = mret results
    ∧ optimization_results two_appliances 2000000 = mret results'
    ∧ Forall2 (λ row row' : scenario_result,
                 Scenario row = Scenario row'
                 ∧ Daily_kWh row = Daily_kWh row'
                 ∧ Solar_kWp row = Solar_kWp row'
                 ∧ Est_Cost row = Est_Cost row'
                 ∧ Monthly_Savings row = Monthly_Savings row'
                 ∧ (Within_Budget row = true → Within_Budget row' = true))
              results results'.
Proof.
  apply (X18_budget_monotone two_appliances 400000 2000000). discriminate.
Defined.

(** An entry that is not counted: quantity not positive, or a priority
    outside High, Medium and Low (such as "Remove"). *)
Lemma in_scenario_excluded (priorities : list string) (item : string * appliance) :
  priorities ⊆ ["High"; "Medium"; "Low"] →
  (quantity item.2 <= 0)%Z ∨ ¬ kept_priority item →
  in_scenario priorities item = false.
Proof.
  intros Hsub Hex. unfold in_scenario.
  destruct (bool_decide (priority item.2 ∈ priorities)) eqn:Hin; [|reflexivity].
  apply bool_decide_eq_true in Hin. destruct Hex as [Hq|Hp].
  - destruct (Z.ltb_spec 0 (quantity item.2)) as [Hpos|_]; [lia|].
    now rewrite andb_false_r.
  - exfalso. apply Hp. unfold kept_priority. now apply Hsub.
Qed.

Lemma scenarios_priorities (scenario : string * list string) :
  In scenario scenarios → scenario.2 ⊆ ["High"; "Medium"; "Low"].
Proof.
  intros [<-|[<-|[<-|[]]]]; intros p; cbn [snd]; rewrite !elem_of_cons; tauto.
Qed.

Lemma for_loop_ext {S A : Type} (body body' : S → A → result S) (items : list A) :
  (∀ s x, In x items → body s x = body' s x) →
  ∀ s, for_loop body items s = for_loop body' items s.
Proof.
  induction items as [|x items IH]; intros Hbody s; [reflexivity|].
  cbn [for_loop]. rewrite (Hbody s x) by now left.
  destruct (body' s x) as [e|s']; [reflexivity|]. simpl.
  apply IH. intros s0 y Hy. apply Hbody. now right.
Qed.

Lemma optimization_results_ext (data data' : appliances) (max_budget : Q) :
  (∀ scenario, In scenario scenarios →
     scenario_appliances data scenario.2 = scenario_appliances data' scenario.2) →
  optimization_results data max_budget = optimization_results data' max_budget.
Proof.
  intros Hsame. unfold optimization_results. apply for_loop_ext.
  intros results [scenario_name priorities] Hin. unfold optimization_step.
  specialize (Hsame _ Hin). cbn [snd] in Hsame. now rewrite Hsame.
Qed.

(** X19. An entry marked "Remove" (or with any priority other than High,
    Medium and Low) and an entry whose quantity is not positive have no
    effect on the optimizer: the rows and the recommendation are those of
    the working set without the entry. *)
Theorem X19_removed_entries_ignored
    (l1 l2 : appliances) (item : string * appliance) (max_budget : Q) :
  (quantity item.2 <= 0)%Z ∨ ¬ kept_priority item →
  optimization_results (l1 ++ item :: l2) max_budget
  = optimization_results (l1 ++ l2) max_budget
  ∧ recommended_configuration (l1 ++ item :: l2) max_budget
    = recommended_configuration (l1 ++ l2) max_budget.
Proof.
  intros Hex.
  assert (Hres : optimization_results (l1 ++ item :: l2) max_budget
                 = optimization_results (l1 ++ l2) max_budget).
  { apply optimization_results_ext. intros scenario Hin.
    unfold scenario_appliances. rewrite !List.filter_app. cbn [List.filter].
    now rewrite (in_scenario_excluded _ _ (scenarios_priorities _ Hin) Hex). }
  split; [exact Hres|]. unfold recommended_configuration. now rewrite Hres.
Qed.

Lemma X19_removed_entries_ignored_witness :
  optimization_results
    ([] ++ ("Iron", {| power := 1200; hours := 1; quantity := 1; priority := "Remove" |})
        :: two_appliances) 2000000
  = optimization_results ([] ++ two_appliances) 2000000
  ∧ recommended_configuration
      ([] ++ ("Iron", {| power := 1200; hours := 1; quantity := 1; priority := "Remove" |})
          :: two_appliances) 2000000
    = recommended_configuration ([] ++ two_appliances) 2000000.
Proof.
  apply (X19_removed_entries_ignored [] two_appliances).
  right. unfold kept_priority. simpl. rewrite !elem_of_cons, elem_of_nil.
  intros [H|[H|[H|[]]]]; discriminate H.
Defined.

Lemma consumption_step_skip (acc : Q * Q) (item : string * appliance) :
  positive_quantity item = false → consumption_step acc item = acc.
Proof.
  intros Hq. destruct acc as [w k]. unfold consumption_step.
  unfold positive_quantity in Hq. now rewrite Hq.
Qed.

Lemma consumption_filter_skip (keep : string * appliance → bool) (data : appliances) :
  (∀ item, In item data → keep item = false → positive_quantity item = false) →
  ∀ acc : Q * Q,
    fold_left consumption_step (List.filter keep data) acc
    = fold_left consumption_step data acc.
Proof.
  induction data as [|item data IH]; intros Hskip acc; [reflexivity|].
  cbn [List.filter]. destruct (keep item) eqn:Hkeep; cbn [fold_left].
  - apply IH. intros x Hx. apply Hskip. now right.
  - assert (Hq : positive_quantity item = false) by (apply Hskip; [now left | exact Hkeep]).
    rewrite (consumption_step_skip _ _ Hq).
    apply IH. intros x Hx. apply Hskip. now right.
Qed.

(** X20. When every entry has priority High, Medium or Low, the appliance
    subset of "All Appliances" has the totals of the whole working set: the
    widest scenario is sized for the load the Load Calculator shows. *)
Theorem X20_all_appliances_is_whole_load (appliances_data : appliances) :
  Forall kept_priority appliances_data →
  In ("All Appliances", ["High"; "Medium"; "Low"]) scenarios
  ∧ calculate_daily_consumption
      (scenario_appliances appliances_data ["High"; "Medium"; "Low"])
    = calculate_daily_consumption appliances_data
  ∧ scenario_daily_kwh appliances_data ["High"; "Medium"; "Low"]
    = (calculate_daily_consumption appliances_data).2.
Proof.
  intros Hkept.
  assert (Heq : calculate_daily_consumption
                  (scenario_appliances appliances_data ["High"; "Medium"; "Low"])
                = calculate_daily_consumption appliances_data).
  { unfold calculate_daily_consumption, scenario_appliances.
    apply consumption_filter_skip. intros item Hin Hout.
    rewrite Forall_forall in Hkept. apply list_elem_of_In, Hkept in Hin.
    unfold in_scenario in Hout. unfold kept_priority in Hin.
    rewrite (bool_decide_eq_true_2 _ Hin) in Hout.
    assert (Hr : String.eqb (priority item.2) "Remove" = false).
    { apply String.eqb_neq. intros Heq. rewrite Heq in Hin.
      rewrite !elem_of_cons, elem_of_nil in Hin.
      destruct Hin as [H|[H|[H|[]]]]; discriminate H. }
    rewrite Hr in Hout. simpl in Hout. rewrite andb_true_r in Hout. exact Hout. }
  split; [do 2 right; left; reflexivity|]. split; [exact Heq|].
  unfold scenario_daily_kwh. now rewrite Heq.
Qed.

Lemma X20_all_appliances_is_whole_load_witness :
  In ("All Appliances", ["High"; "Medium"; "Low"]) scenarios
  ∧ calculate_daily_consumption
      (scenario_appliances two_appliances ["High"; "Medium"; "Low"])
    = calculate_daily_consumption two_appliances
  ∧ scenario_daily_kwh two_appliances ["High"; "Medium"; "Low"]
    = (calculate_daily_consumption two_appliances).2.
Proof.
  apply (X20_all_appliances_is_whole_load two_appliances).
  repeat constructor; unfold kept_priority; simpl; rewrite !elem_of_cons; tauto.
Defined.

(** X21. A working set without any counted entry (every entry has a
    quantity that is not positive or a priority outside High, Medium and
    Low) gives no row and no recommendation, and no exception. *)
Theorem X21_nothing_counted_no_rows (appliances_data : appliances) (max_budget : Q) :
  Forall (λ item : string * appliance,
            (quantity item.2 <= 0)%Z ∨ ¬ kept_priority item) appliances_data →
  optimization_results appliances_data max_budget = mret []
  ∧ recommended_configuration appliances_data max_budget = mret None.
Proof.
  intros Hex.
  assert (Hres : optimization_results appliances_data max_budget = mret []).
  { rewrite optimization_results_closed. f_equal.
    assert (Hnone : ∀ scenario, In scenario scenarios →
                      evaluated appliances_data scenario = false).
    { intros scenario Hin. unfold evaluated, scenario_appliances.
      pose proof (scenarios_priorities _ Hin) as Hsub.
      induction Hex as [|item l Hitem _ IH]; [reflexivity|].
      cbn [List.filter]. now rewrite (in_scenario_excluded _ _ Hsub Hitem). }
    induction scenarios as [|s l IH]; [reflexivity|].
    cbn [List.filter]. rewrite (Hnone s) by now left.
    apply IH. intros s' Hs'. apply Hnone. now right. }
  split; [exact Hres|]. unfold recommended_configuration. now rewrite Hres.
Qed.

Lemma X21_nothing_counted_no_rows_witness :
  optimization_results
    [("Laptop", {| power := 65; hours := 8; quantity := 0; priority := "High" |});
     ("Iron", {| power := 1200; hours := 1; quantity := 1; priority := "Remove" |})]
    2000000 = mret []
  ∧ recommended_configuration
      [("Laptop", {| power := 65; hours := 8; quantity := 0; priority := "High" |});
       ("Iron", {| power := 1200; hours := 1; quantity := 1; priority := "Remove" |})]
      2000000 = mret None.
Proof.
  apply X21_nothing_counted_no_rows.
  constructor; [left; simpl; lia|]. constructor; [|constructor].
  right. unfold kept_priority. simpl. rewrite !elem_of_cons, elem_of_nil.
  intros [H|[H|[H|[]]]]; discriminate H.
Defined.

(** ** The recommendation *)

(** [max_from] returns the first item of greatest key: the items before it
    have a smaller key, the items after it a key that is not greater. *)
Lemma max_from_first {A : Type} (key : A → Q) (items : list A) : ∀ best : A,
  ∃ before after : list A,
    best :: items = before ++ max_from key best items :: after
    ∧ Forall (λ x, key x < key (max_from key best items)) before
    ∧ Forall (λ x, key x <= key (max_from key best items)) after.
Proof.
  induction items as [|x items IH]; intros best.
  - exists [], []. split; [reflexivity|]. split; constructor.
  - cbn [max_from]. destruct (Qle_bool (key x) (key best)) eqn:E.
    + apply Qle_bool_iff in E.
      destruct (IH best) as (before & after & Hsplit & Hlt & Hle).
      destruct before as [|b before].
      * injection Hsplit as Hm Hitems.
        exists [], (x :: after). split; [|split; [constructor|]].
        -- simpl. congruence.
        -- constructor; [|exact Hle]. now rewrite <- Hm.
      * injection Hsplit as <- Hitems.
        exists (best :: x :: before), after. split; [|split; [|exact Hle]].
        -- simpl. do 2 f_equal. exact Hitems.
        -- apply Forall_cons in Hlt as [Hb Hlt].
           constructor; [exact Hb|]. constructor; [|exact Hlt].
           now apply Qle_lt_trans with (key best).
    + assert (Hlt : key best < key x).
      { apply Qnot_le_lt. intros Hle. apply Qle_bool_iff in Hle. congruence. }
      destruct (IH x) as (before & after & Hsplit & Hbefore & Hafter).
      exists (best :: before), after. split; [|split; [|exact Hafter]].
      * simpl. now rewrite Hsplit.
      * constructor; [|exact Hbefore].
        apply Qlt_le_trans with (key x); [exact Hlt|].
        destruct (max_from_spec key items x) as [_ Hall].
        now apply Forall_cons in Hall as [Hx _].
Qed.

(** X22. Among the rows within budget the recommendation is the first one
    whose [Daily kWh] is greatest: every row within budget before it has a
    strictly smaller [Daily kWh], every one after it a [Daily kWh] that is
    not greater.  Ties go to the narrower scenario. *)
Theorem X22_recommendation_is_first_maximum
    (results : list scenario_result) (best : scenario_result) :
  best_scenario results = Some best →
  ∃ before after : list scenario_result,
    affordable_scenarios results = before ++ best :: after
    ∧ Forall (λ row, Daily_kWh row < Daily_kWh best) before
    ∧ Forall (λ row, Daily_kWh row <= Daily_kWh best) after.
Proof.
  unfold best_scenario.
  destruct (affordable_scenarios results) as [|r rest]; [discriminate|].
  intros [= <-]. apply max_from_first.
Qed.

Lemma X22_recommendation_is_first_maximum_witness :
  ∃ before after : list scenario_result,
    affordable_scenarios two_appliances_results
    = before ++ {| Scenario := "Essential Only (High Priority)";
                   Daily_kWh := 1.00; Solar_kWp := 0.26; Est_Cost := 454248;
                   Within_Budget := true; Monthly_Savings := 3000 |} :: after
    ∧ Forall (λ row, Daily_kWh row < 1.00) before
    ∧ Forall (λ row, Daily_kWh row <= 1.00) after.
Proof.
  apply (X22_recommendation_is_first_maximum two_appliances_results
           {| Scenario := "Essential Only (High Priority)";
              Daily_kWh := 1.00; Solar_kWp := 0.26; Est_Cost := 454248;
              Within_Budget := true; Monthly_Savings := 3000 |}).
  vm_compute. reflexivity.
Defined.










(** * Properties of the code over Python's numbers *)

(** ** The result monad *)

Lemma py_bind_inr {A B : Type} (m : Py.result A) (k : A → Py.result B) (b : B) :
  m ≫= k = inr b → ∃ a : A, m = inr a ∧ k a = inr b.
Proof. destruct m as [e|a]; [discriminate|]. intros H. now exists a. Qed.

Lemma py_bind_inl {A B : Type} (m : Py.result A) (k : A → Py.result B) (e : Py.exn) :
  m ≫= k = inl e → m = inl e ∨ ∃ a : A, m = inr a ∧ k a = inl e.
Proof.
  destruct m as [e'|a]; intros H; [left|right; now exists a].
  unfold mbind, Py.result_bind in H. now injection H as ->.
Qed.

(** A loop whose turns either append one row or leave the list alone
    returns one row per turn of the first kind, in order. *)
Lemma py_loop_rows {A R : Type} (step : list R → A → Py.result (list R))
    (keep : A → bool) (P : A → R → Prop) :
  (∀ (acc : list R) (x : A) (acc' : list R),
     step acc x = inr acc' →
     if keep x then ∃ row : R, acc' = acc ++ [row] ∧ P x row else acc' = acc) →
  ∀ (items : list A) (acc out : list R),
    Py.for_loop step items acc = inr out →
    ∃ rows : list R, out = acc ++ rows ∧ Forall2 P (List.filter keep items) rows.
Proof.
  intros Hstep items. induction items as [|x items IH]; intros acc out H.
  - injection H as <-. exists []. split; [now rewrite app_nil_r|constructor].
  - cbn [Py.for_loop] in H. apply py_bind_inr in H as (acc' & Hx & H).
    apply Hstep in Hx. apply IH in H as (rows & -> & Hrows).
    cbn [List.filter]. destruct (keep x).
    + destruct Hx as (row & -> & Hrow). exists (row :: rows).
      split; [now rewrite <- app_assoc|now constructor].
    + subst acc'. now exists rows.
Qed.

(** A loop raises what one of its turns raises. *)
Lemma py_loop_raises {S A : Type} (step : S → A → Py.result S) (P : Py.exn → Prop) :
  (∀ (s : S) (x : A) (e : Py.exn), step s x = inl e → P e) →
  ∀ (items : list A) (s : S) (e : Py.exn), Py.for_loop step items s = inl e → P e.
Proof.
  intros Hstep items. induction items as [|x items IH]; intros s e H; [discriminate|].
  cbn [Py.for_loop] in H. apply py_bind_inl in H as [H|(s' & _ & H)]; eauto.
Qed.

(** ** Numbers *)

Lemma py_le_spec (a b : Py.num) (p q : Q) :
  Py.value a = Py.XFin p → Py.value b = Py.XFin q → (Py.le a b = true ↔ p <= q).
Proof.
  intros Ha Hb. unfold Py.le. rewrite Ha, Hb. cbn [Py.xle]. apply Qle_bool_iff.
Qed.

(** The order of the keys of [max]. *)
Lemma py_xlt_irrefl (a : Py.xreal) : Py.xlt a a = false.
Proof.
  destruct a as [| |p|]; cbn [Py.xlt]; try reflexivity.
  apply negb_false_iff, Qle_bool_iff, Qle_refl.
Qed.

Lemma py_xlt_trans (a b c : Py.xreal) :
  Py.xlt a b = true → Py.xlt b c = true → Py.xlt a c = true.
Proof.
  destruct a as [| |p|], b as [| |q|], c as [| |r|]; cbn [Py.xlt];
    try discriminate; try reflexivity.
  rewrite !negb_true_iff. intros H1 H2.
  destruct (Qle_bool r p) eqn:H; [|reflexivity].
  apply Qle_bool_iff in H.
  destruct (Qlt_le_dec p q) as [Hpq|Hqp]; [|apply Qle_bool_iff in Hqp; congruence].
  destruct (Qlt_le_dec q r) as [Hqr|Hrq]; [|apply Qle_bool_iff in Hrq; congruence].
  exfalso. apply (Qlt_irrefl p).
  eapply Qlt_le_trans; [|exact H]. eapply Qlt_trans; eassumption.
Qed.

Lemma py_xlt_asym (a b : Py.xreal) : Py.xlt a b = true → Py.xlt b a = false.
Proof.
  intros H. destruct (Py.xlt b a) eqn:H'; [|reflexivity].
  rewrite <- (py_xlt_irrefl a). symmetry. eapply py_xlt_trans; eassumption.
Qed.

(** An item that is not above a smaller item is not above a greater one. *)
Lemma py_xlt_chain (a b c : Py.xreal) :
  Py.xlt a b = true → Py.xlt a c = false → Py.xlt b c = false.
Proof.
  intros H1 H2. destruct (Py.xlt b c) eqn:H; [|reflexivity].
  rewrite <- H2. symmetry. eapply py_xlt_trans; eassumption.
Qed.

Lemma py_to_float_raises (n : Py.num) (e : Py.exn) :
  Py.to_float n = inl e → e = Py.OverflowError.
Proof.
  destruct n as [z|f]; cbn [Py.to_float]; [|discriminate].
  destruct (is_infinity (Py.round_Z z)); [|discriminate]. now intros [= <-].
Qed.

Lemma py_add_raises (a b : Py.num) (e : Py.exn) :
  Py.add a b = inl e → e = Py.OverflowError.
Proof.
  destruct a as [x|x], b as [y|y]; cbn [Py.add]; try discriminate; intros H;
    repeat (apply py_bind_inl in H as [H|(? & _ & H)];
            [now apply py_to_float_raises in H|]);
    discriminate.
Qed.

Lemma py_mul_raises (a b : Py.num) (e : Py.exn) :
  Py.mul a b = inl e → e = Py.OverflowError.
Proof.
  destruct a as [x|x], b as [y|y]; cbn [Py.mul]; try discriminate; intros H;
    repeat (apply py_bind_inl in H as [H|(? & _ & H)];
            [now apply py_to_float_raises in H|]);
    discriminate.
Qed.

Lemma py_truediv_raises (a b : Py.num) (e : Py.exn) :
  Py.truediv a b = inl e → e = Py.ZeroDivisionError ∨ e = Py.OverflowError.
Proof.
  assert (Hgen : ∀ m : Py.result float,
            (∀ e', m = inl e' → e' = Py.OverflowError) →
            ∀ m' : Py.result float,
              (∀ e', m' = inl e' → e' = Py.OverflowError) →
              (x ← m; y ← m';
               if is_zero y then Py.raise Py.ZeroDivisionError else mret (x / y)%float)
              = inl e → e = Py.ZeroDivisionError ∨ e = Py.OverflowError).
  { intros m Hm m' Hm' H.
    apply py_bind_inl in H as [H|(x & _ & H)]; [right; now apply Hm|].
    apply py_bind_inl in H as [H|(y & _ & H)]; [right; now apply Hm'|].
    destruct (is_zero y); [left; now injection H|discriminate]. }
  destruct a as [x|x], b as [y|y]; cbn [Py.truediv].
  - destruct (y =? 0)%Z; [intros [= <-]; now left|].
    destruct (is_infinity (Py.round_ratio x y)); [intros [= <-]; now right|discriminate].
  - apply Hgen; apply py_to_float_raises.
  - apply Hgen; apply py_to_float_raises.
  - apply Hgen; apply py_to_float_raises.
Qed.

Lemma py_format0_raises (n : Py.num) (e : Py.exn) :
  Py.format0 n = inl e → e = Py.OverflowError.
Proof.
  unfold Py.format0. intros H.
  apply py_bind_inl in H as [H|(? & _ & H)]; [now apply py_to_float_raises in H|].
  discriminate.
Qed.

Lemma py_ceil_int_raises (x : float) (e : Py.exn) :
  Py.ceil_int x = inl e → e = Py.ValueError ∨ e = Py.OverflowError.
Proof.
  unfold Py.ceil_int. destruct (Py.value_of_float x); intros [= <-]; auto.
Qed.

(** A float divided by a float that is not zero, and a float times an
    [int] within the range of the floats. *)
Lemma py_truediv_floats (x y : float) :
  is_zero y = false → Py.truediv (Py.Flt x) (Py.Flt y) = inr (x / y)%float.
Proof. intros Hy. cbn [Py.truediv Py.to_float]. unfold mbind, mret, Py.result_bind, Py.result_ret. now rewrite Hy. Qed.

(** ** Panel recommender *)

Lemma py_ceil_int_returns (x : float) (n : Z) :
  Py.ceil_int x = inr n → ∃ q : Q, Py.value_of_float x = Py.XFin q ∧ n = Qceiling q.
Proof.
  unfold Py.ceil_int. destruct (Py.value_of_float x) as [| |q|]; try discriminate.
  intros [= <-]. now exists q.
Qed.

Lemma py_ceiling_positive (q : Q) : 0 < q → (1 <= Qceiling q)%Z.
Proof.
  intros Hq.
  assert (H : 0 < inject_Z (Qceiling q)).
  { eapply Qlt_le_trans; [exact Hq|apply Qle_ceiling]. }
  change 0 with (inject_Z 0) in H. rewrite <- Zlt_Qlt in H. lia.
Qed.

(** What one turn of the loop of [recommend_panels] appends. *)
Lemma py_recommend_step_row (required_kwp : Py.num) (acc : list Py.recommendation)
    (item : string * Py.panel) (acc' : list Py.recommendation) :
  Py.recommend_step required_kwp acc item = inr acc' →
  ∃ row : Py.recommendation,
    acc' = acc ++ [row]
    ∧ py_panel_row_ok required_kwp item row ∧ py_cost_per_watt_ok item row.
Proof.
  destruct item as [panel_name panel_data]. unfold Py.recommend_step. intros H.
  apply py_bind_inr in H as (panel_kw & E1 & H).
  apply py_bind_inr in H as (ratio & E2 & H).
  apply py_bind_inr in H as (num_panels & E3 & H).
  apply py_bind_inr in H as (total_capacity & E4 & H).
  apply py_bind_inr in H as (total_cost & E5 & H).
  apply py_bind_inr in H as (total_cost_shown & E6 & H).
  apply py_bind_inr in H as (cost_per_watt & E7 & H).
  injection H as <-. eexists. split; [reflexivity|].
  apply py_ceil_int_returns in E3 as (q & Hq & ->).
  split.
  - exists panel_kw, ratio, q, total_capacity.
    cbn [Py.Panel_Type Py.Number_of_Panels Py.Total_Capacity_kW fst snd].
    repeat split; try assumption; try reflexivity.
    + apply Qle_ceiling.
    + intros count Hc. rewrite <- (Qceiling_Z count). now apply Qceiling_resp_le.
    + apply py_ceiling_positive.
    + unfold py_panel_capacity. cbn [snd]. now rewrite E1.
  - exists cost_per_watt. cbn [Py.Cost_per_Watt snd]. now split.
Qed.

Lemma py_recommend_rows (panels : list (string * Py.panel)) (required_kwp : Py.num)
    (rows : list Py.recommendation) :
  Py.recommend_panels_with panels required_kwp = inr rows →
  Forall2 (λ item row, py_panel_row_ok required_kwp item row
                       ∧ py_cost_per_watt_ok item row) panels rows.
Proof.
  intros H.
  apply (py_loop_rows (Py.recommend_step required_kwp) (λ _, true)
           (λ item row, py_panel_row_ok required_kwp item row
                        ∧ py_cost_per_watt_ok item row)) in H.
  - destruct H as (rows' & -> & H). now rewrite filter_all_true in H.
  - intros acc x acc' Hx. now apply py_recommend_step_row.
Qed.



(** X8. Whenever [recommend_panels] returns, the row the Solar Sizing page
    picks as best option (the first lowest price per watt) is the fifth
    one, that of Polycrystalline 400W, at 237.5 per watt; its number of
    panels is the ceiling of the binary64 quotient for that panel. *)
Theorem X8_best_option_is_cheapest_per_watt
    (required_kwp : Py.num) (rows : list Py.recommendation) :
  Py.recommend_panels required_kwp = inr rows →
  ∃ (item : string * Py.panel) (best : Py.recommendation),
    Py.best_option rows = Some best
    ∧ Py.SOLAR_PANELS !! 4%nat = Some item
    ∧ rows !! 4%nat = Some best
    ∧ py_panel_row_ok required_kwp item best
    ∧ Py.Panel_Type best = "Polycrystalline 400W"
    ∧ Py.Cost_per_Watt best = Py.Flt 237.5
    ∧ Forall (λ row : Py.recommendation,
                Py.le (Py.Cost_per_Watt best) (Py.Cost_per_Watt row) = true) rows.
Proof.
  intros H. apply py_recommend_rows in H. unfold Py.SOLAR_PANELS in H.
  apply Forall2_cons_inv_l in H as (r1 & rows1 & [_ (c1 & Hc1 & Hr1)] & H & ->).
  apply Forall2_cons_inv_l in H as (r2 & rows2 & [_ (c2 & Hc2 & Hr2)] & H & ->).
  apply Forall2_cons_inv_l in H as (r3 & rows3 & [_ (c3 & Hc3 & Hr3)] & H & ->).
  apply Forall2_cons_inv_l in H as (r4 & rows4 & [_ (c4 & Hc4 & Hr4)] & H & ->).
  apply Forall2_cons_inv_l in H as (r5 & rows5 & [Hrow (c5 & Hc5 & Hr5)] & H & ->).
  apply Forall2_nil_inv_l in H as ->.
  vm_compute in Hc1, Hc2, Hc3, Hc4, Hc5.
  injection Hc1 as <-. injection Hc2 as <-. injection Hc3 as <-.
  injection Hc4 as <-. injection Hc5 as <-.
  match goal with
  | |- ∃ _ _, Py.best_option [?r1; ?r2; ?r3; ?r4; ?r5] = _ ∧ _ =>
    exists ("Polycrystalline 400W"%string,
            {| Py.watts := 400; Py.price := 95000; Py.efficiency := 18;
               Py.warranty := 20 |}), r5;
    assert (Hcol : map Py.Cost_per_Watt [r1; r2; r3; r4; r5]
                   = [Py.Flt 283.33; Py.Flt 275; Py.Flt 270; Py.Flt 250; Py.Flt 237.5])
  end.
  { cbn [map]. rewrite Hr1, Hr2, Hr3, Hr4, Hr5. vm_compute. reflexivity. }
  split; [unfold Py.best_option; rewrite Hcol; reflexivity|].
  split; [reflexivity|]. split; [reflexivity|]. split; [assumption|].
  assert (H5 : Py.Cost_per_Watt r5 = Py.Flt 237.5).
  { rewrite Hr5. vm_compute. reflexivity. }
  split.
  { destruct Hrow as (? & ? & ? & ? & _ & _ & _ & Hname & _). exact Hname. }
  split; [exact H5|]. rewrite H5.
  repeat constructor; [rewrite Hr1|rewrite Hr2|rewrite Hr3|rewrite Hr4|rewrite Hr5];
    vm_compute; reflexivity.
Qed.

(** ** Solar sizing calculator *)

Lemma py_truediv_nonzero (a : Py.num) (y : float) (e : Py.exn) :
  is_zero y = false → Py.truediv a (Py.Flt y) = inl e → e = Py.OverflowError.
Proof.
  intros Hy H.
  assert (H' : (x ← Py.to_float a; y' ← Py.to_float (Py.Flt y);
                if is_zero y' then Py.raise Py.ZeroDivisionError
                else mret (x / y')%float) = inl e).
  { destruct a; exact H. }
  apply py_bind_inl in H' as [H'|(x & _ & H')]; [now apply py_to_float_raises in H'|].
  cbn [Py.to_float] in H'. unfold mbind, mret, Py.result_bind, Py.result_ret in H'.
  rewrite Hy in H'. discriminate.
Qed.

Lemma py_truediv_float (a : Py.num) (x y : float) :
  Py.to_float a = inr x → is_zero y = false →
  Py.truediv a (Py.Flt y) = inr (x / y)%float.
Proof.
  intros Ha Hy.
  assert (H : Py.truediv a (Py.Flt y)
              = (x ← Py.to_float a; y' ← Py.to_float (Py.Flt y);
                 if is_zero y' then Py.raise Py.ZeroDivisionError
                 else mret (x / y')%float)).
  { now destruct a. }
  rewrite H, Ha. cbn [Py.to_float].
  unfold mbind, mret, Py.result_bind, Py.result_ret. now rewrite Hy.
Qed.

Lemma py_truediv_by_zero (a : Py.num) (x y : float) :
  Py.to_float a = inr x → is_zero y = true →
  Py.truediv a (Py.Flt y) = inl Py.ZeroDivisionError.
Proof.
  intros Ha Hy.
  assert (H : Py.truediv a (Py.Flt y)
              = (x ← Py.to_float a; y' ← Py.to_float (Py.Flt y);
                 if is_zero y' then Py.raise Py.ZeroDivisionError
                 else mret (x / y')%float)).
  { now destruct a. }
  rewrite H, Ha. cbn [Py.to_float].
  unfold mbind, mret, Py.result_bind, Py.result_ret. now rewrite Hy.
Qed.

(** A float that is zero times 0.85 is zero. *)
Lemma py_zero_irradiance_divisor (irradiance : float) :
  is_zero irradiance = true → is_zero (irradiance * 0.85)%float = true.
Proof.
  unfold is_zero. rewrite !FloatAxioms.eqb_spec, FloatAxioms.mul_spec.
  destruct (Prim2SF irradiance) as [s|s| |s m e]; try discriminate.
  - intros _. destruct s; vm_compute; reflexivity.
  - destruct s; vm_compute; discriminate.
  - destruct s; vm_compute; discriminate.
Qed.

Lemma py_city_divisors :
  Forall (λ entry : string * float, is_zero (entry.2 * 0.85)%float = false)
         Py.city_irradiance.
Proof. repeat constructor. Qed.

(** Whatever the location, the divisor of the sizing is not zero. *)
Lemma py_divisor_nonzero (location : string) :
  is_zero (py_irradiance_used Py.NIGERIAN_CITIES location * 0.85)%float = false.
Proof.
  unfold py_irradiance_used.
  destruct (Py.NIGERIAN_CITIES !! location) as [irradiance|] eqn:E; cbn [default].
  - apply elem_of_list_to_map_2 in E.
    pose proof py_city_divisors as Hall. rewrite Forall_forall in Hall.
    exact (Hall _ E).
  - reflexivity.
Qed.

(** The sizing over any city table: what it returns when the divisor is
    not zero, and what it raises when the irradiance is zero. *)
Lemma py_sizing_returns (cities : gmap string float) (daily_kwh : Py.num)
    (location : string) (autonomy_days : Z) (d : float) (battery_kwh : Py.num) :
  Py.to_float daily_kwh = inr d →
  is_zero (py_irradiance_used cities location * 0.85)%float = false →
  Py.mul daily_kwh (Py.Int autonomy_days) = inr battery_kwh →
  Py.calculate_solar_system_with cities daily_kwh location autonomy_days
  = inr (Py.Flt (d / (py_irradiance_used cities location * 0.85))%float,
         battery_kwh,
         Py.Flt (py_irradiance_used cities location)).
Proof.
  intros Hd Hz Hb. unfold Py.calculate_solar_system_with.
  fold (py_irradiance_used cities location).
  rewrite (py_truediv_float _ _ _ Hd Hz).
  unfold mbind, mret, Py.result_bind, Py.result_ret. now rewrite Hb.
Qed.

Lemma py_sizing_zero_irradiance (cities : gmap string float) (daily_kwh : Py.num)
    (location : string) (autonomy_days : Z) (d : float) :
  Py.to_float daily_kwh = inr d →
  is_zero (py_irradiance_used cities location) = true →
  Py.calculate_solar_system_with cities daily_kwh location autonomy_days
  = inl Py.ZeroDivisionError.
Proof.
  intros Hd Hz. unfold Py.calculate_solar_system_with.
  fold (py_irradiance_used cities location).
  rewrite (py_truediv_by_zero _ _ _ Hd (py_zero_irradiance_divisor _ Hz)).
  reflexivity.
Qed.

Lemma py_sizing_raises (cities : gmap string float) (daily_kwh : Py.num)
    (location : string) (autonomy_days : Z) (e : Py.exn) :
  Py.calculate_solar_system_with cities daily_kwh location autonomy_days = inl e →
  e = Py.ZeroDivisionError ∨ e = Py.OverflowError.
Proof.
  unfold Py.calculate_solar_system_with. intros H.
  apply py_bind_inl in H as [H|(r & _ & H)]; [now apply py_truediv_raises in H|].
  apply py_bind_inl in H as [H|(b & _ & H)]; [|discriminate].
  right. now apply py_mul_raises in H.
Qed.

(** ** Input validation *)

Lemma py_loop_raises_in {S A : Type} (step : S → A → Py.result S)
    (P : Py.exn → Prop) (items : list A) :
  (∀ (s : S) (x : A) (e : Py.exn), In x items → step s x = inl e → P e) →
  ∀ (s : S) (e : Py.exn), Py.for_loop step items s = inl e → P e.
Proof.
  induction items as [|x items IH]; intros Hstep s e H; [discriminate|].
  cbn [Py.for_loop] in H. apply py_bind_inl in H as [H|(s' & _ & H)].
  - apply (Hstep s x e); [now left|exact H].
  - apply (IH (λ s x e Hx, Hstep s x e (or_intror Hx)) s' e H).
Qed.

(** A loop with a turn that raises in every state does not return. *)
Lemma py_loop_stuck {S A : Type} (step : S → A → Py.result S) (items : list A) :
  Exists (λ x : A, ∀ s : S, ∃ e : Py.exn, step s x = inl e) items →
  ∀ s : S, ∃ e : Py.exn, Py.for_loop step items s = inl e.
Proof.
  induction 1 as [x items Hx|x items _ IH]; intros s; cbn [Py.for_loop].
  - destruct (Hx s) as (e & ->). now exists e.
  - destruct (step s x) as [e|s']; [now exists e|]. apply IH.
Qed.

Lemma py_consumption_step_raises (acc : Py.num * Py.num)
    (item : string * Py.appliance) (e : Py.exn) :
  Py.consumption_step acc item = inl e → e = Py.OverflowError.
Proof.
  destruct acc as [total_watts total_kwh]. unfold Py.consumption_step.
  destruct (0 <? Py.quantity item.2)%Z; [|discriminate]. intros H.
  apply py_bind_inl in H as [H|(w & _ & H)]; [now apply py_mul_raises in H|].
  apply py_bind_inl in H as [H|(en & _ & H)]; [now apply py_mul_raises in H|].
  apply py_bind_inl in H as [H|(kwh & _ & H)].
  { destruct en as [z|f].
    - cbn [Py.truediv] in H. change (1000 =? 0)%Z with false in H. cbv iota in H.
      destruct (is_infinity (Py.round_ratio z 1000)); [now injection H|discriminate].
    - now apply (py_truediv_nonzero (Py.Flt f) 1000%float). }
  apply py_bind_inl in H as [H|(tw & _ & H)]; [now apply py_add_raises in H|].
  apply py_bind_inl in H as [H|(tk & _ & H)]; [now apply py_add_raises in H|].
  discriminate.
Qed.

Lemma py_consumption_raises (appliances_data : list (string * Py.appliance))
    (e : Py.exn) :
  Py.calculate_daily_consumption appliances_data = inl e → e = Py.OverflowError.
Proof.
  apply (py_loop_raises Py.consumption_step (λ e, e = Py.OverflowError)).
  apply py_consumption_step_raises.
Qed.

(** The turn of [recommend_panels] for a panel whose [panel_kw] is not
    zero raises nothing but the errors of [int(np.ceil())] and of a number
    too large for a float. *)
Lemma py_recommend_step_raises (required_kwp : Py.num)
    (acc : list Py.recommendation) (item : string * Py.panel) (e : Py.exn) :
  Py.recommend_step required_kwp acc item = inl e →
  e = Py.ZeroDivisionError ∨ e = Py.OverflowError ∨ e = Py.ValueError.
Proof.
  destruct item as [panel_name panel_data]. unfold Py.recommend_step. intros H.
  apply py_bind_inl in H as [H|(panel_kw & _ & H)].
  { apply py_truediv_raises in H as [->| ->]; auto. }
  apply py_bind_inl in H as [H|(ratio & _ & H)].
  { apply py_truediv_raises in H as [->| ->]; auto. }
  apply py_bind_inl in H as [H|(num_panels & _ & H)].
  { apply py_ceil_int_raises in H as [->| ->]; auto. }
  apply py_bind_inl in H as [H|(total_capacity & _ & H)].
  { apply py_mul_raises in H as ->; auto. }
  apply py_bind_inl in H as [H|(total_cost & _ & H)].
  { apply py_mul_raises in H as ->; auto. }
  apply py_bind_inl in H as [H|(total_cost_shown & _ & H)].
  { apply py_format0_raises in H as ->; auto. }
  apply py_bind_inl in H as [H|(cost_per_watt & _ & H)]; [|discriminate].
  apply py_truediv_raises in H as [->| ->]; auto.
Qed.

Lemma py_recommend_step_catalogue (required_kwp : Py.num)
    (acc : list Py.recommendation) (item : string * Py.panel) (e : Py.exn) :
  In item Py.SOLAR_PANELS →
  Py.recommend_step required_kwp acc item = inl e →
  e = Py.OverflowError ∨ e = Py.ValueError.
Proof.
  intros Hin.
  assert (Hitem : ∃ panel_kw cost_per_watt : float,
            Py.truediv (Py.Int (Py.watts item.2)) (Py.Int 1000) = inr panel_kw
            ∧ is_zero panel_kw = false
            ∧ Py.truediv (Py.Int (Py.price item.2)) (Py.Int (Py.watts item.2))
              = inr cost_per_watt).
  { unfold Py.SOLAR_PANELS in Hin.
    repeat destruct Hin as [<-|Hin]; try contradiction;
      eexists _, _; (split; [vm_compute; reflexivity|]);
      (split; [vm_compute; reflexivity|]); vm_compute; reflexivity. }
  destruct Hitem as (kw & cpw & Hkw & Hz & Hcpw).
  destruct item as [panel_name panel_data]. cbn [snd] in Hkw, Hcpw.
  unfold Py.recommend_step. rewrite Hkw, Hcpw. intros H.
  apply py_bind_inl in H as [H|(panel_kw & [= <-] & H)]; [discriminate|].
  apply py_bind_inl in H as [H|(ratio & _ & H)].
  { left. now apply (py_truediv_nonzero required_kwp kw). }
  apply py_bind_inl in H as [H|(num_panels & _ & H)].
  { apply py_ceil_int_raises in H as [->| ->]; auto. }
  apply py_bind_inl in H as [H|(total_capacity & _ & H)].
  { apply py_mul_raises in H as ->; auto. }
  apply py_bind_inl in H as [H|(total_cost & _ & H)].
  { apply py_mul_raises in H as ->; auto. }
  apply py_bind_inl in H as [H|(total_cost_shown & _ & H)].
  { apply py_format0_raises in H as ->; auto. }
  apply py_bind_inl in H as [H|(cost_per_watt & _ & H)]; discriminate.
Qed.

(** The turn for a panel of zero wattage raises in every state. *)
Lemma py_recommend_step_zero_wattage (required_kwp : Py.num)
    (acc : list Py.recommendation) (item : string * Py.panel) :
  Py.watts item.2 = 0%Z →
  ∃ e : Py.exn, Py.recommend_step required_kwp acc item = inl e.
Proof.
  destruct item as [panel_name panel_data]. cbn [snd]. intros Hw.
  unfold Py.recommend_step. rewrite Hw.
  change (Py.truediv (Py.Int 0) (Py.Int 1000)) with (inr 0%float : Py.result float).
  unfold mbind at 1. unfold Py.result_bind at 1. cbv beta iota.
  destruct (Py.to_float required_kwp) as [e|x] eqn:Hx.
  - exists e. destruct required_kwp; cbn [Py.truediv]; rewrite Hx; reflexivity.
  - exists Py.ZeroDivisionError.
    now rewrite (py_truediv_by_zero required_kwp x 0%float Hx eq_refl).
Qed.

(** ** The sign of binary64 results *)
















(** ** The scenario loop returns *)

Lemma py_loop_returns {S A : Type} (step : S → A → Py.result S) (items : list A) :
  (∀ (s : S) (x : A), In x items → ∃ s' : S, step s x = inr s') →
  ∀ s : S, ∃ out : S, Py.for_loop step items s = inr out.
Proof.
  induction items as [|x items IH]; intros Hstep s; cbn [Py.for_loop].
  - now exists s.
  - destruct (Hstep s x (or_introl eq_refl)) as (s' & ->).
    apply IH. intros s0 y Hy. apply Hstep. now right.
Qed.

Lemma py_add_float (a : Py.num) (y : float) (c : Py.num) :
  Py.add a (Py.Flt y) = inr c → ∃ f : float, c = Py.Flt f.
Proof.
  intros H.
  assert (H' : (x ← Py.to_float a; y' ← Py.to_float (Py.Flt y);
                mret (Py.Flt (x + y')%float)) = inr c) by (destruct a; exact H).
  apply py_bind_inr in H' as (x & _ & H'). injection H' as <-. eauto.
Qed.

Lemma py_mul_float_int (x : float) (z : Z) (c : float) :
  Py.to_float (Py.Int z) = inr c →
  Py.mul (Py.Flt x) (Py.Int z) = inr (Py.Flt (x * c)).
Proof.
  intros Hc. unfold Py.mul. rewrite Hc. reflexivity.
Qed.

(** The daily energy of a set in which every entry counts is a float. *)
Lemma py_consumption_float (items : list (string * Py.appliance))
    (acc : Py.num * Py.num) (total_watts total_kwh : Py.num) :
  Forall (λ item : string * Py.appliance, (0 <? Py.quantity item.2)%Z = true) items →
  items ≠ [] ∨ (∃ f : float, acc.2 = Py.Flt f) →
  Py.for_loop Py.consumption_step items acc = inr (total_watts, total_kwh) →
  ∃ f : float, total_kwh = Py.Flt f.
Proof.
  intros Hall. revert acc.
  induction Hall as [|item items Hq _ IH]; intros acc Hacc H.
  - destruct Hacc as [Hne|(f & Hf)]; [congruence|].
    cbn [Py.for_loop] in H. injection H as ->. now exists f.
  - cbn [Py.for_loop] in H. apply py_bind_inr in H as (acc' & Hstep & H).
    apply (IH acc'); [right|exact H].
    destruct acc as [tw tk]. unfold Py.consumption_step in Hstep.
    rewrite Hq in Hstep.
    apply py_bind_inr in Hstep as (w & _ & Hstep).
    apply py_bind_inr in Hstep as (en & _ & Hstep).
    apply py_bind_inr in Hstep as (kwh & _ & Hstep).
    apply py_bind_inr in Hstep as (tw' & _ & Hstep).
    apply py_bind_inr in Hstep as (tk' & Hadd & Hstep).
    injection Hstep as <-. cbn [snd]. now apply py_add_float in Hadd.
Qed.

(** After the consumption sum nothing in a turn of the scenario loop can
    fail. *)
Lemma py_optimization_step_returns (appliances_data : list (string * Py.appliance))
    (max_budget : Py.num) (acc : list Py.scenario_result)
    (scenario : string * list string) (total_watts total_kwh : Py.num) :
  Py.calculate_daily_consumption (Py.scenario_appliances appliances_data scenario.2)
  = inr (total_watts, total_kwh) →
  ∃ acc' : list Py.scenario_result,
    Py.optimization_step appliances_data max_budget acc scenario = inr acc'.
Proof.
  destruct scenario as [scenario_name priorities]. cbn [snd]. intros Hsum.
  unfold Py.optimization_step.
  destruct (Py.scenario_appliances appliances_data priorities) as [|item rest] eqn:Esel;
    [now exists acc|].
  destruct (py_consumption_float (item :: rest) (Py.Int 0, Py.Int 0)
              total_watts total_kwh) as (k & ->).
  { rewrite <- Esel. apply Forall_forall. intros x Hx.
    apply list_elem_of_In, filter_In in Hx as [_ Hx]. unfold Py.in_scenario in Hx.
    apply andb_true_iff in Hx as [Hx _]. now apply andb_true_iff in Hx as [_ Hx]. }
  { now left. }
  { exact Hsum. }
  rewrite Hsum. unfold mbind at 1. unfold Py.result_bind at 1. cbv beta iota.
  unfold Py.calculate_solar_system.
  rewrite (py_sizing_returns Py.NIGERIAN_CITIES (Py.Flt k) "Lagos"
             default_autonomy_days k (Py.Flt (k * 2)) eq_refl
             (py_divisor_nonzero "Lagos") eq_refl).
  eexists. reflexivity.
Qed.

Lemma py_optimization_returns (appliances_data : list (string * Py.appliance))
    (max_budget : Py.num) :
  (∀ scenario : string * list string,
     In scenario scenarios →
     ∃ total_watts total_kwh : Py.num,
       Py.calculate_daily_consumption
         (Py.scenario_appliances appliances_data scenario.2)
       = inr (total_watts, total_kwh)) →
  ∃ results : list Py.scenario_result,
    Py.optimization_results appliances_data max_budget = inr results.
Proof.
  intros Hsum. apply py_loop_returns. intros acc scenario Hin.
  destruct (Hsum scenario Hin) as (tw & tk & H).
  now apply (py_optimization_step_returns _ _ _ _ tw tk).
Qed.

(** ** Scenario optimizer *)

(** What one turn of the scenario loop appends. *)
Lemma py_optimization_step_row (appliances_data : list (string * Py.appliance))
    (max_budget : Py.num) (acc : list Py.scenario_result)
    (scenario : string * list string) (acc' : list Py.scenario_result) :
  Py.optimization_step appliances_data max_budget acc scenario = inr acc' →
  if py_evaluated appliances_data scenario
  then ∃ row : Py.scenario_result,
         acc' = acc ++ [row]
         ∧ py_scenario_row_ok appliances_data max_budget scenario row
  else acc' = acc.
Proof.
  destruct scenario as [scenario_name priorities].
  unfold Py.optimization_step, py_evaluated, py_scenario_row_ok. cbn [fst snd].
  destruct (Py.scenario_appliances appliances_data priorities) as [|item rest] eqn:Esel.
  { now intros [= <-]. }
  intros H.
  apply py_bind_inr in H as ([total_watts total_kwh] & E1 & H).
  apply py_bind_inr in H as ([[required_kwp battery_kwh] irradiance] & E2 & H).
  apply py_bind_inr in H as (panel_cost & E3 & H).
  apply py_bind_inr in H as (inverter_cost & E4 & H).
  apply py_bind_inr in H as (battery_cost & E5 & H).
  apply py_bind_inr in H as (installation_cost & E6 & H).
  apply py_bind_inr in H as (panel_inverter & E7 & H).
  apply py_bind_inr in H as (panel_inverter_battery & E8 & H).
  apply py_bind_inr in H as (total_cost & E9 & H).
  apply py_bind_inr in H as (est_cost & E10 & H).
  apply py_bind_inr in H as (thirty_days & E11 & H).
  apply py_bind_inr in H as (savings & E12 & H).
  apply py_bind_inr in H as (monthly_savings & E13 & H).
  injection H as <-. eexists. split; [reflexivity|].
  exists total_watts, total_kwh, required_kwp, battery_kwh, irradiance.
  split; [exact E1|]. split; [exact E2|].
  exists panel_cost, inverter_cost, battery_cost, installation_cost,
         panel_inverter, panel_inverter_battery, total_cost.
  cbn [Py.Scenario Py.Daily_kWh Py.Solar_kWp Py.Est_Cost Py.Within_Budget].
  repeat split; try assumption; try reflexivity.
  - intros Hfit. eapply py_le_spec; eassumption.
  - intros Hle. eapply py_le_spec; eassumption.
Qed.

Lemma py_optimization_rows (appliances_data : list (string * Py.appliance))
    (max_budget : Py.num) (results : list Py.scenario_result) :
  Py.optimization_results appliances_data max_budget = inr results →
  Forall2 (py_scenario_row_ok appliances_data max_budget)
          (List.filter (py_evaluated appliances_data) scenarios) results.
Proof.
  intros H.
  apply (py_loop_rows (Py.optimization_step appliances_data max_budget)
           (py_evaluated appliances_data)
           (py_scenario_row_ok appliances_data max_budget)) in H.
  - now destruct H as (rows & -> & H).
  - intros acc x acc'. apply py_optimization_step_row.
Qed.

(** C5. The scenario loop returns whenever the consumption sums of the
    scenario subsets do; its rows are those of the scenarios whose
    appliance subset is not empty, in scenario order, and each row holds
    the estimate of the linear formula, computed in binary64 in the order
    of the code; the scenario is marked as fitting exactly when that total
    is not above the budget.  For one 13005 W appliance used an hour a day
    and a budget of 5,907,500 the total is shown as 5,907,500 but exceeds
    the budget, and the scenario does not fit. *)
Theorem C5_scenario_cost_estimate :
  (∀ (appliances_data : list (string * Py.appliance)) (max_budget : Py.num),
     (∀ scenario : string * list string,
        In scenario scenarios →
        ∃ total_watts total_kwh : Py.num,
          Py.calculate_daily_consumption
            (Py.scenario_appliances appliances_data scenario.2)
          = inr (total_watts, total_kwh)) →
     ∃ results : list Py.scenario_result,
       Py.optimization_results appliances_data max_budget = inr results)
  ∧ (∀ (appliances_data : list (string * Py.appliance)) (max_budget : Py.num)
       (results : list Py.scenario_result),
       Py.optimization_results appliances_data max_budget = inr results →
       Forall2 (py_scenario_row_ok appliances_data max_budget)
               (List.filter (py_evaluated appliances_data) scenarios) results)
  ∧ ∃ (results : list Py.scenario_result) (row : Py.scenario_result),
      Py.optimization_results py_one_appliance (Py.Int 5907500) = inr results
      ∧ results !! 0%nat = Some row
      ∧ Py.Est_Cost row = Py.Digits 5907500
      ∧ Py.Within_Budget row = false.
Proof.
  split; [exact py_optimization_returns|].
  split; [exact py_optimization_rows|].
  destruct (Py.optimization_results py_one_appliance (Py.Int 5907500))
    as [e|results] eqn:E; vm_compute in E; [discriminate|].
  injection E as <-. eexists _, _. split; [reflexivity|].
  split; [reflexivity|]. split; reflexivity.
Qed.

(** ** The recommendation *)

(** [max]: the item kept is the start or a later item with a greater key,
    and no item has a key above its key. *)
Lemma py_max_from_spec {A : Type} (key : A → Py.num) (items : list A) (best : A) :
  let chosen := Py.max_from key best items in
  (chosen = best ∨ In chosen items ∧ Py.lt (key best) (key chosen) = true)
  ∧ ∀ x : A, In x (best :: items) → Py.lt (key chosen) (key x) = false.
Proof.
  revert best. induction items as [|y items IH]; intros best; cbn [Py.max_from].
  - split; [now left|]. intros x [<-|[]]. apply py_xlt_irrefl.
  - destruct (Py.lt (key best) (key y)) eqn:Hlt.
    + destruct (IH y) as [Hc Hmax].
      assert (Hbest : Py.lt (key best) (key (Py.max_from key y items)) = true).
      { destruct Hc as [->|[_ Hc]]; [exact Hlt|].
        eapply py_xlt_trans; eassumption. }
      split.
      * right. split; [|exact Hbest].
        destruct Hc as [->|[Hc _]]; [now left|now right].
      * intros x [<-|Hx]; [now apply py_xlt_asym|now apply Hmax].
    + destruct (IH best) as [Hc Hmax]. split.
      * destruct Hc as [->|[Hc Hc']]; [now left|right; split; [now right|exact Hc']].
      * intros x [<-|[<-|Hx]].
        -- apply Hmax. now left.
        -- destruct Hc as [->|[_ Hc]]; [exact Hlt|].
           eapply py_xlt_chain; eassumption.
        -- apply Hmax. now right.
Qed.

Lemma py_best_scenario_spec (results : list Py.scenario_result) :
  Py.affordable_scenarios results ≠ [] →
  ∃ best : Py.scenario_result,
    Py.best_scenario results = Some best
    ∧ In best (Py.affordable_scenarios results)
    ∧ ∀ other : Py.scenario_result,
        In other (Py.affordable_scenarios results) →
        Py.lt (Py.Daily_kWh best) (Py.Daily_kWh other) = false.
Proof.
  unfold Py.best_scenario.
  destruct (Py.affordable_scenarios results) as [|r rest]; [congruence|]. intros _.
  destruct (py_max_from_spec Py.Daily_kWh rest r) as [Hc Hmax].
  eexists. split; [reflexivity|]. split; [|exact Hmax].
  destruct Hc as [->|[Hc _]]; [now left|now right].
Qed.

Lemma py_affordable_scenarios_In (results : list Py.scenario_result)
    (row : Py.scenario_result) :
  In row (Py.affordable_scenarios results)
  ↔ In row results ∧ Py.Within_Budget row = true.
Proof. unfold Py.affordable_scenarios. apply filter_In. Qed.

Lemma Forall2_row_source {A B : Type} (P : A → B → Prop) (l : list A) (rows : list B)
    (row : B) :
  Forall2 P l rows → In row rows → ∃ x : A, In x l ∧ P x row.
Proof.
  induction 1 as [|x r l rows Hok _ IH]; intros Hin; [contradiction|].
  destruct Hin as [<-|Hin].
  - exists x. split; [now left | exact Hok].
  - destruct (IH Hin) as (y & Hy & Hrow). exists y. split; [now right | exact Hrow].
Qed.

(** Every row of [results] is the row of a scenario of the table. *)
Lemma py_results_row_scenario (appliances_data : list (string * Py.appliance))
    (max_budget : Py.num) (results : list Py.scenario_result)
    (row : Py.scenario_result) :
  Py.optimization_results appliances_data max_budget = inr results →
  In row results →
  ∃ scenario : string * list string,
    In scenario scenarios
    ∧ py_evaluated appliances_data scenario = true
    ∧ py_scenario_row_ok appliances_data max_budget scenario row.
Proof.
  intros Hres Hin. apply py_optimization_rows in Hres.
  destruct (Forall2_row_source _ _ _ _ Hres Hin) as (scenario & Hsc & Hok).
  apply filter_In in Hsc as [Hsc Hev]. now exists scenario.
Qed.

(** C6, as the code has it.  Whenever the scenario loop returns and at
    least one row is within budget, the recommended configuration is a row
    that is within budget, the row of a scenario of the table, and no row
    within budget has a greater [Daily kWh] field, the binary64 daily
    energy of the scenario rounded to two decimals by [round]. *)
Theorem C6_recommended_max_shown_kwh
    (appliances_data : list (string * Py.appliance)) (max_budget : Py.num)
    (results : list Py.scenario_result) :
  Py.optimization_results appliances_data max_budget = inr results →
  Py.affordable_scenarios results ≠ [] →
  ∃ (best : Py.scenario_result) (scenario : string * list string),
    Py.recommended_configuration appliances_data max_budget = inr (Some best)
    ∧ In best results
    ∧ Py.Within_Budget best = true
    ∧ In scenario scenarios
    ∧ py_scenario_row_ok appliances_data max_budget scenario best
    ∧ ∀ other : Py.scenario_result,
        In other results → Py.Within_Budget other = true →
        Py.lt (Py.Daily_kWh best) (Py.Daily_kWh other) = false.
Proof.
  intros Hres Hne.
  destruct (py_best_scenario_spec results Hne) as (best & Hbest & Hin & Hmax).
  apply py_affordable_scenarios_In in Hin as [Hin Hfit].
  destruct (py_results_row_scenario appliances_data max_budget results best Hres Hin)
    as (scenario & Hsc & _ & Hok).
  exists best, scenario. split; [|repeat split; try assumption].
  - unfold Py.recommended_configuration. rewrite Hres.
    unfold mbind, mret, Py.result_bind, Py.result_ret. now rewrite Hbest.
  - intros other Hother Hofit. apply Hmax, py_affordable_scenarios_In. now split.
Qed.

Lemma C6_recommended_max_shown_kwh_witness :
  ∃ (best : Py.scenario_result) (scenario : string * list string),
    Py.recommended_configuration py_two_appliances (Py.Int 2000000) = inr (Some best)
    ∧ In best py_two_appliances_results
    ∧ Py.Within_Budget best = true
    ∧ In scenario scenarios
    ∧ py_scenario_row_ok py_two_appliances (Py.Int 2000000) scenario best
    ∧ ∀ other : Py.scenario_result,
        In other py_two_appliances_results → Py.Within_Budget other = true →
        Py.lt (Py.Daily_kWh best) (Py.Daily_kWh other) = false.
Proof.
  apply (C6_recommended_max_shown_kwh py_two_appliances (Py.Int 2000000)
           py_two_appliances_results).
  - vm_compute. reflexivity.
  - vm_compute. discriminate.
Defined.

(** C6, as the specification words it, fails on [py_two_appliances]: all
    three scenarios fit two million and all three show 1.0 kWh a day, so
    [max] keeps the first row, "Essential Only", whose daily energy is
    1.0 kWh, while "Essential + Important" fits as well with 1.004 kWh. *)
Lemma C6_counterexample :
  (∃ best other : Py.scenario_result,
     Py.recommended_configuration py_two_appliances (Py.Int 2000000)
     = inr (Some best)
     ∧ Py.Scenario best = "Essential Only (High Priority)"
     ∧ In other (Py.affordable_scenarios py_two_appliances_results)
     ∧ Py.Scenario other = "Essential + Important (High + Medium)"
     ∧ Py.Daily_kWh best = Py.Flt 1 ∧ Py.Daily_kWh other = Py.Flt 1
     ∧ Py.calculate_daily_consumption (Py.scenario_appliances py_two_appliances ["High"])
       = inr (Py.Int 1000, Py.Flt 1)
     ∧ Py.calculate_daily_consumption
         (Py.scenario_appliances py_two_appliances ["High"; "Medium"])
       = inr (Py.Int 1004, Py.Flt 1.004))
  ∧ ¬ py_recommends_max_daily_kwh py_two_appliances (Py.Int 2000000).
Proof.
  split.
  - eexists _, _. split; [vm_compute; reflexivity|].
    split; [reflexivity|]. split; [right; left; reflexivity|].
    repeat split; vm_compute; reflexivity.
  - intros Hclaim.
    assert (Hlt : Py.lt (Py.Flt 1) (Py.Flt 1.004) = false).
    { eapply (Hclaim py_two_appliances_results _ _
                ("Essential Only (High Priority)", ["High"])
                ("Essential + Important (High + Medium)", ["High"; "Medium"])).
      - vm_compute. reflexivity.
      - vm_compute. reflexivity.
      - left. reflexivity.
      - reflexivity.
      - right. left. reflexivity.
      - right. left. reflexivity.
      - reflexivity.
      - vm_compute. reflexivity.
      - vm_compute. reflexivity. }
    vm_compute in Hlt. discriminate.
Qed.




Lemma py_optimization_step_raises (appliances_data : list (string * Py.appliance))
    (max_budget : Py.num) (acc : list Py.scenario_result)
    (scenario : string * list string) (e : Py.exn) :
  Py.optimization_step appliances_data max_budget acc scenario = inl e →
  e = Py.OverflowError.
Proof.
  destruct scenario as [scenario_name priorities]. unfold Py.optimization_step.
  destruct (Py.scenario_appliances appliances_data priorities) as [|item rest];
    [discriminate|].
  intros H.
  apply py_bind_inl in H as [H|([total_watts total_kwh] & _ & H)];
    [now apply py_consumption_raises in H|].
  apply py_bind_inl in H as [H|([[required_kwp battery_kwh] irradiance] & _ & H)].
  { unfold Py.calculate_solar_system, Py.calculate_solar_system_with in H.
    apply py_bind_inl in H as [H|(r & _ & H)].
    - apply py_truediv_nonzero in H; [exact H|].
      apply (py_divisor_nonzero "Lagos").
    - apply py_bind_inl in H as [H|(b & _ & H)]; [|discriminate].
      now apply py_mul_raises in H. }
  repeat (apply py_bind_inl in H as [H|(? & _ & H)];
          [first [now apply py_mul_raises in H | now apply py_add_raises in H
                 | now apply py_format0_raises in H]|]).
  discriminate.
Qed.

Lemma py_optimization_raises (appliances_data : list (string * Py.appliance))
    (max_budget : Py.num) (e : Py.exn) :
  Py.optimization_results appliances_data max_budget = inl e → e = Py.OverflowError.
Proof.
  apply (py_loop_raises (Py.optimization_step appliances_data max_budget)
           (λ e, e = Py.OverflowError)).
  intros s x e'. apply py_optimization_step_raises.
Qed.

(** C4, as the code has it.  No function of the calculation core checks
    its inputs and none reports [InvalidInput]: the consumption sum and the
    scenario loop raise nothing but [OverflowError], the sizing nothing but
    [ZeroDivisionError] and [OverflowError]; the sizing returns for every
    float demand, negative ones, infinities and NaN included, every
    location and every autonomy that converts to a float, zero and
    negative ones included; [recommend_panels] returns one row per
    catalogue panel or raises [OverflowError] or [ValueError]; a zero
    irradiance and a zero panel wattage surface as [ZeroDivisionError]; and
    an infinite value is returned for a demand of 1e308 kWh. *)
Theorem C4_no_validation :
  (∀ (appliances_data : list (string * Py.appliance)) (e : Py.exn),
     Py.calculate_daily_consumption appliances_data = inl e → e = Py.OverflowError)
  ∧ (∀ (cities : gmap string float) (daily_kwh : Py.num) (location : string)
       (autonomy_days : Z) (e : Py.exn),
       Py.calculate_solar_system_with cities daily_kwh location autonomy_days = inl e →
       e = Py.ZeroDivisionError ∨ e = Py.OverflowError)
  ∧ (∀ (panels : list (string * Py.panel)) (required_kwp : Py.num) (e : Py.exn),
       Py.recommend_panels_with panels required_kwp = inl e →
       e = Py.ZeroDivisionError ∨ e = Py.OverflowError ∨ e = Py.ValueError)
  ∧ (∀ (appliances_data : list (string * Py.appliance)) (max_budget : Py.num)
       (e : Py.exn),
       Py.optimization_results appliances_data max_budget = inl e →
       e = Py.OverflowError)
  ∧ (∀ (d : float) (location : string) (autonomy_days : Z) (a : float),
       Py.to_float (Py.Int autonomy_days) = inr a →
       Py.calculate_solar_system (Py.Flt d) location autonomy_days
       = inr (Py.Flt (d / (py_irradiance_used Py.NIGERIAN_CITIES location * 0.85)),
              Py.Flt (d * a),
              Py.Flt (py_irradiance_used Py.NIGERIAN_CITIES location)))
  ∧ (∀ (required_kwp : Py.num),
       (∃ rows : list Py.recommendation,
          Py.recommend_panels required_kwp = inr rows
          ∧ length rows = length Py.SOLAR_PANELS)
       ∨ Py.recommend_panels required_kwp = inl Py.OverflowError
       ∨ Py.recommend_panels required_kwp = inl Py.ValueError)
  ∧ (∀ (cities : gmap string float) (daily_kwh : Py.num) (location : string)
       (autonomy_days : Z) (d : float),
       Py.to_float daily_kwh = inr d →
       is_zero (py_irradiance_used cities location) = true →
       Py.calculate_solar_system_with cities daily_kwh location autonomy_days
       = inl Py.ZeroDivisionError)
  ∧ (∀ (panels : list (string * Py.panel)) (required_kwp : Py.num),
       Exists (λ item : string * Py.panel, Py.watts item.2 = 0%Z) panels →
       ∃ e : Py.exn,
         Py.recommend_panels_with panels required_kwp = inl e
         ∧ e ≠ Py.InvalidInput)
  ∧ (∀ required_kwp : float,
       Py.recommend_panels_with py_dead_panel (Py.Flt required_kwp)
       = inl Py.ZeroDivisionError)
  ∧ Py.calculate_solar_system (Py.Flt (-10)) "Lagos" 0
    = inr (Py.Flt (-2.6143790849673203), Py.Flt (-0), Py.Flt 4.5)
  ∧ Py.calculate_solar_system (Py.Flt 1e308) "Lagos" 2
    = inr (Py.Flt 2.6143790849673207e+307, Py.Flt infinity, Py.Flt 4.5)
  ∧ Py.recommend_panels (Py.Flt 1e308) = inl Py.OverflowError
  ∧ Py.recommend_panels (Py.Flt nan) = inl Py.ValueError.
Proof.
  assert (Hrec : ∀ (panels : list (string * Py.panel)) (required_kwp : Py.num)
                   (e : Py.exn),
            Py.recommend_panels_with panels required_kwp = inl e →
            e = Py.ZeroDivisionError ∨ e = Py.OverflowError ∨ e = Py.ValueError).
  { intros panels r.
    apply (py_loop_raises (Py.recommend_step r)
             (λ e, e = Py.ZeroDivisionError ∨ e = Py.OverflowError ∨ e = Py.ValueError)).
    intros s x e'. apply py_recommend_step_raises. }
  split; [exact py_consumption_raises|]. split; [exact py_sizing_raises|].
  split; [exact Hrec|]. split; [exact py_optimization_raises|].
  split; [|split; [|split; [|split; [|split]]]].
  - intros d loc n a Ha. unfold Py.calculate_solar_system.
    apply (py_sizing_returns Py.NIGERIAN_CITIES (Py.Flt d) loc n d);
      [reflexivity|apply py_divisor_nonzero|].
    cbn [Py.mul Py.to_float] in *. unfold mbind, Py.result_bind. now rewrite Ha.
  - intros r. destruct (Py.recommend_panels r) as [e|rows] eqn:E.
    + right.
      apply (py_loop_raises_in (Py.recommend_step r)
               (λ e, e = Py.OverflowError ∨ e = Py.ValueError) Py.SOLAR_PANELS) in E
        as [->| ->]; auto.
      intros s x e' Hx. now apply py_recommend_step_catalogue.
    + left. exists rows. split; [reflexivity|].
      apply py_recommend_rows in E. symmetry. eapply Forall2_length, E.
  - intros cities daily loc n d. apply py_sizing_zero_irradiance.
  - intros panels r Hzero.
    destruct (py_loop_stuck (Py.recommend_step r) panels) with (s := @nil Py.recommendation)
      as (e & He).
    { eapply Exists_impl; [exact Hzero|]. intros item Hw s.
      now apply py_recommend_step_zero_wattage. }
    exists e. split; [exact He|].
    apply Hrec in He as [->|[->| ->]]; discriminate.
  - intros r. unfold Py.recommend_panels_with, py_dead_panel. cbn [Py.for_loop].
    unfold Py.recommend_step. cbn [Py.watts].
    change (Py.truediv (Py.Int 0) (Py.Int 1000)) with (inr 0%float : Py.result float).
    unfold mbind at 2. unfold Py.result_bind at 2. cbv beta iota.
    now rewrite (py_truediv_by_zero (Py.Flt r) r 0%float eq_refl eq_refl).
  - repeat split; vm_compute; reflexivity.
Qed.

(** C4, as the specification states it, fails on each count: a city table
    with a zero irradiance and a panel table with a zero wattage make the
    functions raise [ZeroDivisionError], not [InvalidInput], and the sizing
    returns an infinite battery capacity for a finite demand. *)
Lemma C4_counterexample :
  Py.calculate_solar_system_with py_dark_city (Py.Flt 10) "Nowhere" 2
  = inl Py.ZeroDivisionError
  ∧ Py.recommend_panels_with py_dead_panel (Py.Flt 2) = inl Py.ZeroDivisionError
  ∧ Py.calculate_solar_system (Py.Flt 1e308) "Lagos" 2
    = inr (Py.Flt 2.6143790849673207e+307, Py.Flt infinity, Py.Flt 4.5)
  ∧ ¬ py_guards_zero_irradiance
  ∧ ¬ py_guards_zero_wattage
  ∧ ¬ py_returns_finite_values.
Proof.
  assert (H1 : Py.calculate_solar_system_with py_dark_city (Py.Flt 10) "Nowhere" 2
               = inl Py.ZeroDivisionError) by (vm_compute; reflexivity).
  assert (H2 : Py.recommend_panels_with py_dead_panel (Py.Flt 2)
               = inl Py.ZeroDivisionError) by (vm_compute; reflexivity).
  assert (H3 : Py.calculate_solar_system (Py.Flt 1e308) "Lagos" 2
               = inr (Py.Flt 2.6143790849673207e+307, Py.Flt infinity, Py.Flt 4.5))
    by (vm_compute; reflexivity).
  repeat split; try assumption.
  - intros H. specialize (H py_dark_city (Py.Flt 10) "Nowhere" 2%Z).
    rewrite H1 in H. discriminate H. vm_compute. reflexivity.
  - intros H. specialize (H py_dead_panel (Py.Flt 2)).
    rewrite H2 in H. discriminate H. now left.
  - intros H. destruct (H (Py.Flt 1e308) _ _ _ _ _ eq_refl H3) as [_ Hb].
    discriminate Hb.
Qed.

Lemma X8_best_option_is_cheapest_per_watt_witness :
  ∃ (item : string * Py.panel) (best : Py.recommendation),
    Py.best_option py_two_kwp_rows = Some best
    ∧ Py.SOLAR_PANELS !! 4%nat = Some item
    ∧ py_two_kwp_rows !! 4%nat = Some best
    ∧ py_panel_row_ok (Py.Flt 2) item best
    ∧ Py.Panel_Type best = "Polycrystalline 400W"
    ∧ Py.Cost_per_Watt best = Py.Flt 237.5
    ∧ Forall (λ row : Py.recommendation,
                Py.le (Py.Cost_per_Watt best) (Py.Cost_per_Watt row) = true)
             py_two_kwp_rows.
Proof.
  apply (X8_best_option_is_cheapest_per_watt (Py.Flt 2) py_two_kwp_rows).
  vm_compute. reflexivity.
Defined.
